(** * c19-dashboard: the forecast plotting pipeline of [plot.py]

    A shallow embedding of [plot.py] (duration parser, scenario loader,
    figure builder, dashboard renderer) and the properties its
    specification states about them.

    Conventions of the embedding.
    - A Python [str] is a [string]; the regular-expression engine walks it
      as a [list ascii].  Strings are taken to be ASCII: Python's [\d] also
      accepts the other Unicode decimal digits, which are not modelled.
    - An exception is a constructor of [exn]; a computation that may raise
      returns [exn + A] ([inl] raises, [inr] returns).
    - A [dict] whose iteration order is observed (the configuration, the
      label mapping, the figures of a scenario) is an association list in
      insertion order; a table row is a finite map from column to cell.
    - Calls into pandas, plotly, [datetime] and the file system that the
      source only passes through are Section variables; the few library
      behaviours the claims depend on are modelled and marked as such. *)

From Stdlib Require Import String Ascii List ZArith QArith Qround Lia Sorted Permutation DecimalString DecimalNat.
From stdpp Require Import base option list gmap strings.
Import ListNotations.

Close Scope Q_scope.
Local Open Scope string_scope.
Local Open Scope list_scope.

(** ** Exceptions and results *)

Inductive exn : Type :=
| KeyError (key : string)
| AssertionError (msg : string)
| ValueError (msg : string)
| TypeError (msg : string)
| IndexError (msg : string)
| AttributeError (attr : string)
| FileNotFoundError (path : string)
| OverflowError (msg : string)
| OtherError (msg : string).

Definition result (A : Type) : Type := exn + A.

Definition raise {A} (e : exn) : result A := inl e.
Definition ok {A} (a : A) : result A := inr a.

Definition rbind {A B} (c : result A) (f : A -> result B) : result B :=
  match c with
  | inl e => inl e
  | inr a => f a
  end.

Notation "'let*' x ':=' c 'in' k" := (rbind c (fun x => k))
  (at level 10, x pattern, c at level 100, k at level 200).

(** [for x in l: f x], collecting the results, stopping at the first raise. *)
Fixpoint rmap {A B} (f : A -> result B) (l : list A) : result (list B) :=
  match l with
  | [] => ok []
  | x :: l' =>
      let* y := f x in
      let* ys := rmap f l' in
      ok (y :: ys)
  end.

(** ** Python strings *)

Definition chars (s : string) : list ascii := list_ascii_of_string s.
Definition str (l : list ascii) : string := string_of_list_ascii l.

(** [sub in s] *)
Fixpoint starts_with (p l : list ascii) : bool :=
  match p, l with
  | [], _ => true
  | _ :: _, [] => false
  | a :: p', b :: l' => Ascii.eqb a b && starts_with p' l'
  end.

Fixpoint contains_chars (p l : list ascii) : bool :=
  starts_with p l ||
  match l with
  | [] => false
  | _ :: l' => contains_chars p l'
  end.

Definition str_in (sub s : string) : bool := contains_chars (chars sub) (chars s).

(** [s.startswith(p)] *)
Definition startswith (s p : string) : bool := starts_with (chars p) (chars s).

(** ** The fragment of [re] that the two patterns of the source use

    Matching is by backtracking with Python's priorities: a greedy
    quantifier tries the longest repetition first, a lazy one the
    shortest, an optional group tries its body before skipping it.  The
    continuation [k] is the rest of the pattern; the first success wins. *)

Definition is_digit (c : ascii) : bool :=
  let n := N_of_ascii c in ((48 <=? n) && (n <=? 57))%N.

Definition is_dot (c : ascii) : bool := Ascii.eqb c ".".

(** the class [[\.\d]] *)
Definition dot_or_digit (c : ascii) : bool := is_dot c || is_digit c.

Inductive re : Type :=
| Bol                                  (* ^ *)
| Eol                                  (* $ *)
| Lit (c : ascii)
| OptC (p : ascii -> bool)             (* p? *)
| Star (p : ascii -> bool)             (* p* *)
| Plus (p : ascii -> bool)             (* p+ *)
| PlusLazy (p : ascii -> bool)         (* p+? *)
| Opt (r : re)                         (* (r)? *)
| Seq (r1 r2 : re)
| Group (name : string) (r : re).      (* (?P<name>r) *)

Definition captures : Type := list (string * list ascii).

Section Engine.
Context {A : Type}.

(** [p*] from here on, longest first *)
Fixpoint star_greedy (p : ascii -> bool) (pos : nat) (s : list ascii)
    (k : nat -> list ascii -> option A) : option A :=
  match s with
  | c :: s' =>
      if p c then
        match star_greedy p (S pos) s' k with
        | Some a => Some a
        | None => k pos s
        end
      else k pos s
  | [] => k pos s
  end.

(** [p*?] from here on, shortest first *)
Fixpoint star_lazy (p : ascii -> bool) (pos : nat) (s : list ascii)
    (k : nat -> list ascii -> option A) : option A :=
  match k pos s with
  | Some a => Some a
  | None =>
      match s with
      | c :: s' => if p c then star_lazy p (S pos) s' k else None
      | [] => None
      end
  end.

Definition newline : ascii := Ascii.ascii_of_nat 10.

Fixpoint exec (r : re) (pos : nat) (s : list ascii) (caps : captures)
    (k : nat -> list ascii -> captures -> option A) : option A :=
  match r with
  | Bol => if (pos =? 0)%nat then k pos s caps else None
  | Eol =>
      match s with
      | [] => k pos s caps
      | [c] => if Ascii.eqb c newline then k pos s caps else None
      | _ => None
      end
  | Lit c =>
      match s with
      | c' :: s' => if Ascii.eqb c c' then k (S pos) s' caps else None
      | [] => None
      end
  | OptC p =>
      match s with
      | c :: s' =>
          if p c then
            match k (S pos) s' caps with
            | Some a => Some a
            | None => k pos s caps
            end
          else k pos s caps
      | [] => k pos s caps
      end
  | Star p => star_greedy p pos s (fun pos' s' => k pos' s' caps)
  | Plus p =>
      match s with
      | c :: s' =>
          if p c then star_greedy p (S pos) s' (fun pos' s' => k pos' s' caps)
          else None
      | [] => None
      end
  | PlusLazy p =>
      match s with
      | c :: s' =>
          if p c then star_lazy p (S pos) s' (fun pos' s' => k pos' s' caps)
          else None
      | [] => None
      end
  | Opt r' =>
      match exec r' pos s caps k with
      | Some a => Some a
      | None => k pos s caps
      end
  | Seq r1 r2 =>
      exec r1 pos s caps (fun pos' s' caps' => exec r2 pos' s' caps' k)
  | Group name r' =>
      exec r' pos s caps
        (fun pos' s' caps' => k pos' s' ((name, firstn (pos' - pos) s) :: caps'))
  end.
End Engine.

(** [m.group(name)]: the last text the group captured, [None] if it never
    took part in the match. *)
Fixpoint group (name : string) (caps : captures) : option string :=
  match caps with
  | [] => None
  | (n, txt) :: caps' => if String.eqb n name then Some (str txt) else group name caps'
  end.

(** [regex.match(s)]: a match anchored at position 0. *)
Definition re_match (r : re) (s : string) : option captures :=
  exec r 0 (chars s) [] (fun _ _ caps => Some caps).

(** [m.groupdict()] for the named groups [names], in pattern order. *)
Definition groupdict (names : list string) (caps : captures)
  : list (string * option string) :=
  map (fun n => (n, group n caps)) names.

(** [re.findall(r, s)] for a pattern without groups: the texts of the
    successive non-overlapping matches, scanning from the left. *)
Fixpoint findall_from (r : re) (fuel pos : nat) (s : list ascii) : list string :=
  match fuel with
  | O => []
  | S fuel' =>
      match exec r pos s [] (fun pos' s' _ => Some (pos', s')) with
      | Some (pos', s') =>
          let txt := str (firstn (pos' - pos) s) in
          if (pos' =? pos)%nat then
            match s with
            | [] => [txt]
            | _ :: s1 => txt :: findall_from r fuel' (S pos) s1
            end
          else txt :: findall_from r fuel' pos' s'
      | None =>
          match s with
          | [] => []
          | _ :: s1 => findall_from r fuel' (S pos) s1
          end
      end
  end.

Definition findall (r : re) (s : string) : list string :=
  findall_from r (S (String.length s)) 0 (chars s).

(** ** [float] and [pd.Timedelta]

    Durations and instants are rationals, in seconds.  A [float] stands at
    the exact value of its decimal text: the rounding to a binary float is
    not modelled, so the embedding says what the program computes only
    where that rounding is exact (whole numbers below 2^53 among them).  A
    [Timedelta] counts whole nanoseconds in a signed 64-bit integer. *)

Definition digit_value (c : ascii) : Z := Z.of_N (N_of_ascii c) - 48.

(** [float(s)] on the alphabet the two patterns admit, digits and the dot:
    at most one dot and at least one digit, else [ValueError].  No other
    text reaches [float] in this program. *)
Fixpoint scan_decimal (s : list ascii) (mant : Z) (seen_dot : bool)
    (scale : positive) (ndigits : nat) : option Q :=
  match s with
  | [] => if (ndigits =? 0)%nat then None else Some (Qmake mant scale)
  | c :: s' =>
      if is_digit c then
        scan_decimal s' (10 * mant + digit_value c) seen_dot
          (if seen_dot then (10 * scale)%positive else scale) (S ndigits)
      else if is_dot c then
        if seen_dot then None else scan_decimal s' mant true scale ndigits
      else None
  end.

Definition py_float (s : string) : result Q :=
  match scan_decimal (chars s) 0 false 1 0 with
  | Some q => ok q
  | None => raise (ValueError ("could not convert string to float: '" +:+ s +:+ "'"))
  end.

(** Seconds in one unit of a [pd.Timedelta] keyword. *)
Definition unit_seconds (name : string) : Q :=
  if String.eqb name "days" then inject_Z 86400
  else if String.eqb name "hours" then inject_Z 3600
  else if String.eqb name "minutes" then inject_Z 60
  else inject_Z 1.

Definition total_seconds (kwargs : list (string * Q)) : Q :=
  fold_right (fun kv acc => Qplus (Qmult (unit_seconds kv.1) kv.2) acc) (inject_Z 0) kwargs.

Definition ns_per_second : Z := 1000000000.

Definition int64_max : Z := 9223372036854775807.

(** the duration of [ns] nanoseconds, in seconds *)
Definition of_ns (ns : Z) : Q := Qred (Qmake ns 1000000000).

(** [pd.Timedelta] called with keywords among days, hours, minutes,
    seconds: the sum of the components, cut to whole nanoseconds; a sum
    that does not fit the 64-bit count of nanoseconds is refused with an
    [OverflowError], and a call without any keyword with a [ValueError]. *)
Definition pd_Timedelta (kwargs : list (string * Q)) : result Q :=
  match kwargs with
  | [] => raise (ValueError "cannot construct a Timedelta without a value/unit or descriptive keywords (days,seconds....)")
  | _ =>
      let ns := Qfloor (Qmult (total_seconds kwargs) (inject_Z ns_per_second)) in
      if (ns <=? int64_max)%Z then ok (of_ns ns)
      else raise (OverflowError "Python int too large to convert to C long")
  end.

(** ** [parse_time] *)

Definition time_segment (name : string) (unit : ascii) : re :=
  Opt (Seq (Group name (PlusLazy dot_or_digit)) (Lit unit)).

(** [^((?P<days>[\.\d]+?)d)?((?P<hours>[\.\d]+?)h)?((?P<minutes>[\.\d]+?)m)?((?P<seconds>[\.\d]+?)s)?$] *)
Definition time_regex : re :=
  Seq Bol
    (Seq (time_segment "days" "d")
       (Seq (time_segment "hours" "h")
          (Seq (time_segment "minutes" "m")
             (Seq (time_segment "seconds" "s") Eol)))).

Definition time_names : list string := ["days"; "hours"; "minutes"; "seconds"].

Definition assert_message (time_str : string) : string :=
  "Could not parse any time information from '" +:+ time_str +:+
  "'.  Examples of valid strings: '8h', '2d8h5m20s', '2m4s'".

(** the entries of [groupdict()] whose value is truthy *)
Fixpoint truthy_groups (d : list (string * option string)) : list (string * string) :=
  match d with
  | [] => []
  | (name, Some param) :: d' =>
      if String.eqb param "" then truthy_groups d' else (name, param) :: truthy_groups d'
  | (_, None) :: d' => truthy_groups d'
  end.

Definition parse_time (time_str : string) : result Q :=
  match re_match time_regex time_str with
  | None => raise (AssertionError (assert_message time_str))
  | Some parts =>
      let* time_params :=
        rmap (fun kv => let* v := py_float kv.2 in ok (kv.1, v))
             (truthy_groups (groupdict time_names parts)) in
      pd_Timedelta time_params
  end.

(** ** Dictionaries in insertion order *)

Definition dict (V : Type) : Type := list (string * V).

Section Dict.
Context {V : Type}.

Fixpoint dict_get (k : string) (d : dict V) : option V :=
  match d with
  | [] => None
  | (k', v) :: d' => if String.eqb k' k then Some v else dict_get k d'
  end.

Definition dict_del (k : string) (d : dict V) : dict V :=
  List.filter (fun kv => negb (String.eqb kv.1 k)) d.

(** [d[k] = v]: an existing key keeps its place, a new one goes last. *)
Fixpoint dict_set (k : string) (v : V) (d : dict V) : dict V :=
  match d with
  | [] => [(k, v)]
  | (k', v') :: d' =>
      if String.eqb k' k then (k', v) :: d' else (k', v') :: dict_set k v d'
  end.

Definition dict_keys (d : dict V) : list string := map fst d.
End Dict.

(** ** JSON scalars of the configuration *)

Inductive jval : Type :=
| JStr (s : string)
| JInt (z : Z).

Definition as_str (what : string) (v : jval) : result string :=
  match v with
  | JStr s => ok s
  | JInt _ => raise (TypeError what)
  end.

(** ** The configuration mapping as mutable state

    [load_output_data] pops keys from the mapping it is given; the mapping
    is threaded through as the state of a state-and-exception monad, so
    that what the caller sees afterwards is part of the result. *)

Definition config : Type := dict jval.

Definition M (A : Type) : Type := config -> result A * config.

Definition retM {A} (a : A) : M A := fun cfg => (ok a, cfg).

Definition bindM {A B} (c : M A) (f : A -> M B) : M B :=
  fun cfg =>
    match c cfg with
    | (inl e, cfg') => (inl e, cfg')
    | (inr a, cfg') => f a cfg'
    end.

Definition lift {A} (r : result A) : M A := fun cfg => (r, cfg).

Notation "'do*' x ':=' c 'in' k" := (bindM c (fun x => k))
  (at level 10, x pattern, c at level 100, k at level 200).

(** [config.pop(key)] *)
Definition pop (key : string) : M jval :=
  fun cfg =>
    match dict_get key cfg with
    | Some v => (ok v, dict_del key cfg)
    | None => (raise (KeyError key), cfg)
    end.

(** [config.items()], consumed at once by the comprehension *)
Definition items : M (list (string * jval)) := fun cfg => (ok cfg, cfg).

(** ** Tables

    A cell is a number, a text or an instant; a row maps column names to
    cells, a column name without an entry standing for a missing value
    (pandas's NaN and NaT). *)

Inductive cell : Type :=
| CNum (q : Q)
| CStr (s : string)
| CTime (t : Q).

Record DataFrame : Type := mkDataFrame {
  columns : list string;
  rows : list (gmap string cell)
}.

Definition has_column (c : string) (df : DataFrame) : bool :=
  existsb (String.eqb c) (columns df).

Definition add_column (c : string) (cols : list string) : list string :=
  if existsb (String.eqb c) cols then cols else cols ++ [c].

(** [df[c] = v] for a scalar [v] *)
Definition assign_scalar (c : string) (v : cell) (df : DataFrame) : DataFrame :=
  mkDataFrame (add_column c (columns df)) (map (fun r => <[c := v]> r) (rows df)).

Definition set_cell (c : string) (v : option cell) (r : gmap string cell) : gmap string cell :=
  match v with
  | Some x => <[c := x]> r
  | None => delete c r
  end.

(** [df[c] = series] for a series computed row by row from [df] itself *)
Definition assign_series (c : string) (series : list (option cell)) (df : DataFrame)
  : DataFrame :=
  mkDataFrame (add_column c (columns df))
    (map (fun rv => set_cell c rv.2 rv.1) (zip (rows df) series)).

(** [df.apply(f, axis=1)] for a function reading the row's attributes.  On
    a frame without rows pandas does not return a series but a copy of the
    frame, and the column assignment that follows refuses it. *)
Definition df_apply (f : gmap string cell -> result (option cell)) (df : DataFrame)
  : result (list (option cell)) :=
  match rows df with
  | [] => raise (ValueError "cannot set a frame to a single column")
  | _ => rmap f (rows df)
  end.

(** the union of the column lists, in order of first appearance *)
Definition union_columns (dfs : list DataFrame) : list string :=
  fold_left (fun acc df => fold_left (fun a c => add_column c a) (columns df) acc) dfs [].

(** [pd.concat(dfs)] *)
Definition pd_concat (dfs : list DataFrame) : result DataFrame :=
  match dfs with
  | [] => raise (ValueError "No objects to concatenate")
  | _ => ok (mkDataFrame (union_columns dfs) (concat (map rows dfs)))
  end.

(** [os.path.join(a, b)] on POSIX paths *)
Definition ends_with_slash (a : string) : bool :=
  match rev (chars a) with
  | c :: _ => Ascii.eqb c "/"
  | [] => false
  end.

Definition path_join (a b : string) : string :=
  if startswith b "/" then b
  else if String.eqb a "" || ends_with_slash a then a +:+ b
  else a +:+ "/" +:+ b.

(** [str(n)] for a scenario number *)
Definition str_of_nat (n : nat) : string := NilZero.string_of_uint (Nat.to_uint n).

(** ** [fill_timestep] *)

Definition fill_timestep (timestep first_time_step_datetime time_delta : Q) : Q :=
  Qplus first_time_step_datetime (Qmult timestep time_delta).

(** ** [load_output_data] *)

(** the pattern [\d*\.?\d+] that finds the percentile in a file name *)
Definition percentile_regex : re :=
  Seq (Star is_digit) (Seq (OptC is_dot) (Plus is_digit)).

(** the [if]/[elif]/[else] on [file_type] *)
Definition bound_of (file_type : string) : string :=
  if str_in "upper" file_type then "upper"
  else if str_in "lower" file_type then "lower"
  else "middle".

Definition summary_files_of (cfg : config) : list (string * jval) :=
  List.filter (fun kv => startswith kv.1 "summary_") cfg.

Section Loader.
(** [pd.read_csv]: the file system, which the loader only reads *)
Variable read_csv : string -> result DataFrame.
(** [datetime.strptime] on two strings; an instant, in seconds *)
Variable strptime : string -> string -> result Q.
(** [int] on a string *)
Variable int_of_string : string -> result Z.
(** [json.load] of [config.json], used when no mapping is passed *)
Variable config_json : result config.

Definition py_int (v : jval) : result Z :=
  match v with
  | JInt z => ok z
  | JStr s => int_of_string s
  end.

Definition py_strptime (date_string format : jval) : result Q :=
  let* d := as_str "strptime() argument 1 must be str" date_string in
  let* f := as_str "strptime() argument 2 must be str" format in
  strptime d f.

(** the [try]/[except FileNotFoundError] around the two reads *)
Definition read_with_fallback (scenario_output_path output_path file_name : string)
  : result DataFrame :=
  match read_csv (path_join scenario_output_path file_name) with
  | inl (FileNotFoundError _) => read_csv (path_join output_path file_name)
  | r => r
  end.

(** [lambda x: fill_timestep(x.timestep, first_time_step_datetime, time_delta)]
    on a row of [df] *)
Definition timestep_formatted_of (df : DataFrame) (first_time_step_datetime time_delta : Q)
    (x : gmap string cell) : result (option cell) :=
  if has_column "timestep" df then
    match x !! "timestep" with
    | Some (CNum timestep) =>
        ok (Some (CTime (fill_timestep timestep first_time_step_datetime time_delta)))
    | Some _ => raise (TypeError "unsupported operand type(s) for *")
    | None => ok None
    end
  else raise (AttributeError "timestep").

(** the body of the loop over [summary_files] *)
Definition load_summary (output_path scenario_output_path : string)
    (first_time_step_datetime time_delta : Q) (entry : string * jval)
  : result DataFrame :=
  let file_type := entry.1 in
  let* file_name := as_str "expected string or bytes-like object" entry.2 in
  let* percentile :=
    match findall percentile_regex file_name with
    | p :: _ => ok p
    | [] => raise (IndexError "list index out of range")
    end in
  let* df_temp := read_with_fallback scenario_output_path output_path file_name in
  let df_temp := assign_scalar "percentile" (CStr percentile) df_temp in
  let* series :=
    df_apply (timestep_formatted_of df_temp first_time_step_datetime time_delta) df_temp in
  let df_temp := assign_series "timestep_formatted" series df_temp in
  ok (assign_scalar "bound" (CStr (bound_of file_type)) df_temp).

Definition scenario_path (output_path : string) (scenario_number : nat) : string :=
  output_path +:+ "_" +:+ str_of_nat scenario_number +:+ "/".

(** the body of the loop over [range(0, int(num_scenarios))] *)
Definition load_scenario (output_path : jval) (summary_files : list (string * jval))
    (first_time_step_datetime time_delta : Q) (scenario_number : nat)
  : result DataFrame :=
  let* output_path := as_str "unsupported operand type(s) for +" output_path in
  let scenario_output_path := scenario_path output_path scenario_number in
  let* scenario_dataframes :=
    rmap (load_summary output_path scenario_output_path
            first_time_step_datetime time_delta) summary_files in
  pd_concat scenario_dataframes.

Definition load_body : M (list DataFrame * jval) :=
  do* output_path := pop "output_path" in
  do* num_scenarios := pop "num_scenarios" in
  do* time_step_format := pop "time_step_format" in
  do* time_delta_str := pop "time_delta" in
  do* time_delta :=
    lift (let* s := as_str "expected string or bytes-like object" time_delta_str in
          parse_time s) in
  do* first_time_step := pop "first_time_step" in
  do* first_time_step_datetime := lift (py_strptime first_time_step time_step_format) in
  do* entries := items in
  let summary_files := summary_files_of entries in
  do* n := lift (py_int num_scenarios) in
  do* all_scenario_dataframes :=
    lift (rmap (load_scenario output_path summary_files
                  first_time_step_datetime time_delta)
               (seq 0 (Z.to_nat n))) in
  retM (all_scenario_dataframes, time_step_format).

(** [load_output_data(config)]: what is returned or raised, and the
    mapping as the call leaves it. *)
Definition load_output_data (arg : option config)
  : result (list DataFrame * jval) * config :=
  match arg with
  | Some cfg => load_body cfg
  | None =>
      match config_json with
      | inr cfg => load_body cfg
      | inl e => (raise e, [])
      end
  end.
End Loader.

(** ** [make_figure] *)

(** [go.Scatter(...)] with the keywords the source passes; a keyword that
    is not passed is [None]. *)
Record Scatter : Type := mkScatter {
  sc_x : list (option cell);
  sc_y : list (option cell);
  sc_fill : string;
  sc_fillcolor : option string;
  sc_mode : option string;
  sc_line_color : string;
  sc_line_width : option Z;
  sc_name : string
}.

(** what the two [fig.update_layout(...)] calls set *)
Record Layout : Type := mkLayout {
  title : string;
  xaxis_tickformat : jval;
  xaxis_tickangle : Z;
  yaxis_title : string;
  font_size : Z;
  font_color : string;
  hovermode : string;
  showlegend : bool;
  plot_bgcolor : string;
  xaxis_linecolor : string;
  yaxis_linecolor : string;
  xaxis_rangeslider_visible : bool;
  xaxis_type : string
}.

Record Figure : Type := mkFigure {
  fig_data : list Scatter;
  fig_layout : option Layout
}.

(** [df[c]] *)
Definition column (c : string) (df : DataFrame) : result (list (option cell)) :=
  if has_column c df then ok (map (fun r : gmap string cell => r !! c) (rows df))
  else raise (KeyError c).

(** [df.c] *)
Definition attribute (c : string) (df : DataFrame) : result (list (option cell)) :=
  if has_column c df then ok (map (fun r : gmap string cell => r !! c) (rows df))
  else raise (AttributeError c).

(** The percentile column of the tables [make_figure] receives holds the
    texts the loader took from the file names; a table with anything else
    in that column is outside the model. *)
Definition as_text (v : option cell) : result string :=
  match v with
  | Some (CStr s) => ok s
  | _ => raise (TypeError "percentile is not a text")
  end.

(** [Series.unique()]: the distinct values in order of first appearance *)
Fixpoint unique (l : list string) : list string :=
  match l with
  | [] => []
  | a :: l' => a :: List.filter (fun b => negb (String.eqb a b)) (unique l')
  end.

(** [sorted(l)] on texts: ascending in Python's order on [str], which
    compares code points from the left, a proper prefix coming first. *)
Fixpoint insert_sorted (a : string) (l : list string) : list string :=
  match l with
  | [] => [a]
  | b :: l' => if String.leb a b then a :: l else b :: insert_sorted a l'
  end.

Definition sorted (l : list string) : list string := fold_right insert_sorted [] l.

(** [df[df[c] == p]] *)
Definition filter_eq (c p : string) (df : DataFrame) : DataFrame :=
  mkDataFrame (columns df)
    (List.filter (fun r : gmap string cell =>
               match r !! c with
               | Some (CStr s) => String.eqb s p
               | _ => false
               end) (rows df)).

(** A Python object that a comparison with a text can meet: a [bool] or
    the value of a cell. *)
Inductive pyobj : Type :=
| PBool (b : bool)
| PCell (c : cell).

Definition truthy (o : pyobj) : bool :=
  match o with
  | PBool b => b
  | PCell (CStr s) => negb (String.eqb s "")
  | PCell (CNum q) => negb (Qeq_bool q (inject_Z 0))
  | PCell (CTime _) => true
  end.

Definition skipna (v : option cell) : pyobj :=
  match v with
  | Some c => PCell c
  | None => PBool true
  end.

(** [Series.all()] on a column of Python objects: pandas converts the
    values to [bool] before it reduces them, missing values being skipped
    (replaced by [True]), so the result is a [bool]: [True] when every
    value present is truthy, also for an empty column.  (pandas 1.0
    reduced the objects themselves with Python's [and] and returned an
    element of the column; later releases do not.) *)
Definition series_all (col : list (option cell)) : pyobj :=
  PBool (forallb (fun v => truthy (skipna v)) col).

(** [obj == text]: a [bool] is never equal to a text *)
Definition eq_text (o : pyobj) (s : string) : bool :=
  match o with
  | PCell (CStr s') => String.eqb s' s
  | _ => false
  end.

(** [list.remove(x)] *)
Fixpoint list_remove (x : string) (l : list string) : result (list string) :=
  match l with
  | [] => raise (ValueError "list.remove(x): x not in list")
  | a :: l' =>
      if String.eqb a x then ok l'
      else let* r := list_remove x l' in ok (a :: r)
  end.

Section Figures.
(** [str] of a [float] *)
Variable float_repr : Q -> string.

(** ['%ile: ' + str(float(p))] *)
Definition trace_name (p : string) : result string :=
  let* f := py_float p in ok ("%ile: " +:+ float_repr f).

(** [sorted(df.percentile.unique())] *)
Definition percentiles_of (df : DataFrame) : result (list string) :=
  let* col := attribute "percentile" df in
  let* texts := rmap as_text col in
  ok (sorted (unique texts)).

(** the four [y_cols.remove(...)] *)
Definition y_cols_of (df : DataFrame) : result (list string) :=
  let* c := list_remove "timestep" (columns df) in
  let* c := list_remove "percentile" c in
  let* c := list_remove "timestep_formatted" c in
  list_remove "bound" c.

(** the trace that one round of the loop over [percentiles] adds *)
Definition trace_of (df : DataFrame) (y p : string) : result Scatter :=
  let df_filtered := filter_eq "percentile" p df in
  let* bound := column "bound" df_filtered in
  let* xs := attribute "timestep_formatted" df_filtered in
  let* ys := column y df_filtered in
  let* name := trace_name p in
  if eq_text (series_all bound) "lower" then
    ok (mkScatter xs ys "none" None (Some "lines") "indigo" (Some 0%Z) name)
  else if eq_text (series_all bound) "upper" then
    ok (mkScatter xs ys "tonexty" (Some "rgba(75, 0, 130,0.2)") (Some "lines")
          "indigo" (Some 0%Z) name)
  else
    ok (mkScatter xs ys "tonexty" (Some "rgba(75, 0, 130,0.2)") None
          "indigo" None name).

Definition layout_of (title : string) (time_step_format : jval) : Layout :=
  mkLayout title time_step_format (-45) "Patient Count" 12 "#464646" "x unified"
    false "rgba(0,0,0,0)" "#464646" "#464646" true "date".

(** the figure of one label key: one trace per percentile; the layout is
    set inside the loop, so a table without percentiles leaves it unset *)
Definition figure_of (df : DataFrame) (percentiles : list string)
    (time_step_format : jval) (y title : string) : result Figure :=
  let* traces := rmap (trace_of df y) percentiles in
  ok (mkFigure traces
        (match percentiles with
         | [] => None
         | _ => Some (layout_of title time_step_format)
         end)).

(** [for y in labels.keys(): ...; figures[labels[y]] = fig] *)
Fixpoint build_figures (df : DataFrame) (percentiles : list string)
    (time_step_format : jval) (labels : dict string) (keys : list string)
    (figures : dict Figure) : result (dict Figure) :=
  match keys with
  | [] => ok figures
  | y :: keys' =>
      let* title :=
        match dict_get y labels with
        | Some t => ok t
        | None => raise (KeyError y)
        end in
      let* fig := figure_of df percentiles time_step_format y title in
      build_figures df percentiles time_step_format labels keys'
        (dict_set title fig figures)
  end.

(** the body of the loop over [dfs] *)
Definition scenario_figures (labels : dict string) (time_step_format : jval)
    (df : DataFrame) : result (dict Figure) :=
  let* percentiles := percentiles_of df in
  let* y_cols := y_cols_of df in
  build_figures df percentiles time_step_format labels (dict_keys labels) [].

Definition make_figure (dfs : list DataFrame) (labels : dict string)
    (time_step_format : jval) : result (list (dict Figure)) :=
  rmap (scenario_figures labels time_step_format) dfs.
End Figures.

(** ** [figures_to_html]

    The writes go to a file object; what happens to it is recorded as the
    list of operations performed on it, oldest first. *)

Inductive file_op : Type :=
| OpOpen (path : string) (mode : string)
| OpWrite (data : string)
| OpClose.

(** [s.split(sep)] for a non-empty [sep] *)
Fixpoint split_chars (sep : list ascii) (l : list ascii) (skip : nat)
    (piece : list ascii) : list (list ascii) :=
  match l with
  | [] => [rev piece]
  | c :: l' =>
      match skip with
      | S skip' => split_chars sep l' skip' piece
      | O =>
          if starts_with sep l then rev piece :: split_chars sep l' (length sep - 1) []
          else split_chars sep l' 0 (c :: piece)
      end
  end.

Definition split (s sep : string) : list string :=
  map str (split_chars (chars sep) (chars s) 0 []).

Definition index {A} (l : list A) (i : nat) : result A :=
  match nth_error l i with
  | Some a => ok a
  | None => raise (IndexError "list index out of range")
  end.

Definition page_head : string :=
  "<html><head><link rel='stylesheet' type='text/css' href='assets/style.css'></head><body><div class='container'><h2>COVID-19 Forecast for TMC (Experimental Draft; Do Not Take Seriously)</h2>"
  +:+ String newline "".

Definition page_foot : string := "</div></body></html>" +:+ String newline "".

Section Renderer.
(** [Figure.to_html()] *)
Variable to_html : Figure -> string.
(** the outcome of [open(filename, 'w')] *)
Variable open_file : string -> result unit.
(** the outcome of the [n]-th operation on the file, writing [data] *)
Variable write_file : nat -> string -> result unit.

(** [v.to_html().split("<body>")[1].split("</body>")[0]] *)
Definition inner_html_of (v : Figure) : result string :=
  let* after := index (split (to_html v) "<body>") 1 in
  index (split after "</body>") 0.

(** [dashboard.write(data)] with the operations [ops] done so far *)
Definition write (ops : list file_op) (data : string) : result unit * list file_op :=
  match write_file (length ops) data with
  | inl e => (raise e, ops)
  | inr _ => (ok tt, ops ++ [OpWrite data])
  end.

(** the loop over [figs.items()] *)
Fixpoint write_figures (ops : list file_op) (figs : dict Figure)
  : result unit * list file_op :=
  match figs with
  | [] => (ok tt, ops)
  | (k, v) :: figs' =>
      match inner_html_of v with
      | inl e => (raise e, ops)
      | inr inner_html =>
          match write ops inner_html with
          | (inl e, ops') => (raise e, ops')
          | (inr _, ops') => write_figures ops' figs'
          end
      end
  end.

Definition figures_to_html (figs : dict Figure) (filename : string)
  : result unit * list file_op :=
  match open_file filename with
  | inl e => (raise e, [])
  | inr _ =>
      match write [OpOpen filename "w"] page_head with
      | (inl e, ops) => (raise e, ops)
      | (inr _, ops) =>
          match write_figures ops figs with
          | (inl e, ops') => (raise e, ops')
          | (inr _, ops') => write ops' page_foot
          end
      end
  end.
End Renderer.

(** the file object is open after [ops] *)
Fixpoint is_open (opened : bool) (ops : list file_op) : bool :=
  match ops with
  | [] => opened
  | OpOpen _ _ :: ops' => is_open true ops'
  | OpClose :: ops' => is_open false ops'
  | OpWrite _ :: ops' => is_open opened ops'
  end.

(** * Notions used to state the properties *)

(** ** Duration texts *)

Definition in_class (p : ascii -> bool) (l : list ascii) : Prop :=
  Forall (fun c => p c = true) l.

(** The text after a skipped segment for the unit [u]: a run of the class
    that is not followed by [u]. *)
Definition no_segment (u : ascii) (s : list ascii) : Prop :=
  exists num tail, s = num ++ tail /\ in_class dot_or_digit num /\
    (tail = [] \/ exists v rest, tail = v :: rest /\ dot_or_digit v = false /\ v <> u).

(** A duration text as the contract describes it: the operands that are
    present, each followed by its unit, in the order d, h, m, s. *)
Definition segment (u : ascii) (operand : option string) : string :=
  match operand with
  | Some n => n +:+ String u ""
  | None => ""
  end.

Definition duration_text (d h m s : option string) : string :=
  segment "d" d +:+ segment "h" h +:+ segment "m" m +:+ segment "s" s.





Definition capture_of (name : string) (operand : option string) : captures :=
  match operand with
  | Some n => [(name, chars n)]
  | None => []
  end.

(** ** The configuration and the files of a run *)

Definition popped_keys : list string :=
  ["output_path"; "num_scenarios"; "time_step_format"; "time_delta"; "first_time_step"].

(** the mapping without the five keys, everything else in place *)
Definition without_popped (cfg : config) : config :=
  List.filter (fun kv => negb (existsb (String.eqb kv.1) popped_keys)) cfg.

(** what the loop body does to the table it has read *)
Definition annotate (file_type percentile : string) (first time_delta : Q)
    (raw : DataFrame) : result DataFrame :=
  let df_temp := assign_scalar "percentile" (CStr percentile) raw in
  let* series := df_apply (timestep_formatted_of df_temp first time_delta) df_temp in
  ok (assign_scalar "bound" (CStr (bound_of file_type))
        (assign_series "timestep_formatted" series df_temp)).

(** a row of the result is the row read, with the three columns set *)
Definition keeps (r0 r : gmap string cell) : Prop :=
  forall c : string,
    c <> "percentile" -> c <> "timestep_formatted" -> c <> "bound" -> r !! c = r0 !! c.


Section LoaderSpec.
Variable read_csv : string -> result DataFrame.
Variable strptime : string -> string -> result Q.
Variable int_of_string : string -> result Z.

(** The part of a configuration that the statements before the loops
    consume: the five keys are present, the duration and the first time
    step parse, the number of scenarios converts. *)
Definition preamble_ok (cfg : config) (output_path num_scenarios fmt : jval)
    (time_delta first : Q) (n : Z) : Prop :=
  dict_get "output_path" cfg = Some output_path /\
  dict_get "num_scenarios" cfg = Some num_scenarios /\
  dict_get "time_step_format" cfg = Some fmt /\
  (exists s, dict_get "time_delta" cfg = Some (JStr s) /\ parse_time s = ok time_delta) /\
  (exists f, dict_get "first_time_step" cfg = Some f /\
             py_strptime strptime f fmt = ok first) /\
  py_int int_of_string num_scenarios = ok n.



End LoaderSpec.

(** ** Tables and figures *)

(** Python's order on [str], as [sorted] uses it *)
Definition str_le (a b : string) : Prop := String.leb a b = true.

Definition percentile_column (df : DataFrame) : list (option cell) :=
  map (fun r : gmap string cell => r !! "percentile") (rows df).

(** A table as the loader leaves it, for the label mapping at hand: the
    four columns are there, every row carries a numeric text as its
    percentile, and every label key names a column. *)
Definition figure_ready (labels : dict string) (df : DataFrame) : Prop :=
  has_column "timestep" df = true /\
  has_column "percentile" df = true /\
  has_column "timestep_formatted" df = true /\
  has_column "bound" df = true /\
  Forall (fun r : gmap string cell =>
            exists p q, r !! "percentile" = Some (CStr p) /\ py_float p = ok q) (rows df) /\
  Forall (fun y => has_column y df = true) (dict_keys labels).

(** ** The file object *)

Definition only_writes (ops : list file_op) : Prop :=
  Forall (fun op => exists data, op = OpWrite data) ops.

Definition disk_full (n : nat) (data : string) : result unit :=
  raise (OtherError "No space left on device").

(** ** A small run, used to instantiate the statements *)

Definition table_of (cols : list string) (values : list (list Z)) : DataFrame :=
  mkDataFrame cols
    (map (fun vs => list_to_map (zip cols (map (fun v => CNum (inject_Z v)) vs))) values).

Definition sample_csv (level : Z) : DataFrame :=
  table_of ["timestep"; "hospitalized"] [[0; level]; [1; level + 1]]%Z.

Definition sample_config : config :=
  [("output_path", JStr "out"); ("num_scenarios", JInt 2);
   ("time_step_format", JStr "%Y-%m-%d"); ("time_delta", JStr "1d");
   ("first_time_step", JStr "2020-04-01");
   ("summary_lower", JStr "summary_0.05.csv");
   ("summary_mid", JStr "summary_0.5.csv");
   ("summary_upper", JStr "summary_0.95.csv");
   ("output_html_file", JStr "dashboard.html")].

(** scenario 0 has its own files, scenario 1 only the shared ones *)
Definition sample_files (path : string) : result DataFrame :=
  if String.eqb path "out_0/summary_0.05.csv" then ok (sample_csv 10)
  else if String.eqb path "out_0/summary_0.5.csv" then ok (sample_csv 20)
  else if String.eqb path "out_0/summary_0.95.csv" then ok (sample_csv 30)
  else if String.eqb path "out/summary_0.05.csv" then ok (sample_csv 11)
  else if String.eqb path "out/summary_0.5.csv" then ok (sample_csv 21)
  else if String.eqb path "out/summary_0.95.csv" then ok (sample_csv 31)
  else raise (FileNotFoundError path).

Definition sample_strptime (date_string format : string) : result Q := ok (inject_Z 0).

Definition sample_int (s : string) : result Z :=
  raise (ValueError "invalid literal for int() with base 10").

Definition sample_load (read_csv : string -> result DataFrame) (cfg : config)
  : result (list DataFrame * jval) * config :=
  load_output_data read_csv sample_strptime sample_int (raise (FileNotFoundError "config.json"))
    (Some cfg).

Definition bounds_of (r : result (list DataFrame * jval) * config)
  : result (list (result (list (option cell)))) :=
  let* tables := r.1 in ok (map (column "bound") tables.1).

(** the shared file of the middle band cannot be read, and scenario 1 has
    no file of its own *)
Definition denied_files (path : string) : result DataFrame :=
  if String.eqb path "out/summary_0.5.csv" then raise (OtherError "Permission denied")
  else sample_files path.

Definition sample_table : DataFrame :=
  match (sample_load sample_files sample_config).1 with
  | inr (t :: _, _) => t
  | _ => mkDataFrame [] []
  end.

Definition sample_labels : dict string :=
  [("hospitalized", "Hospitalized patients")].

Definition sample_repr (f : Q) : string := "float".

(** ** What a pattern can consume *)

(** [lang r pos w rest]: started at position [pos] with [w ++ rest] ahead,
    the pattern [r] can consume [w].  The anchors consume nothing and look
    at the position and at what is left. *)
Fixpoint lang (r : re) (pos : nat) (w rest : list ascii) : Prop :=
  match r with
  | Bol => w = [] /\ pos = 0
  | Eol => w = [] /\ (rest = [] \/ rest = [newline])
  | Lit c => w = [c]
  | OptC p => w = [] \/ exists c, w = [c] /\ p c = true
  | Star p => in_class p w
  | Plus p => w <> [] /\ in_class p w
  | PlusLazy p => w <> [] /\ in_class p w
  | Opt r' => w = [] \/ lang r' pos w rest
  | Seq r1 r2 =>
      exists w1 w2, w = w1 ++ w2 /\ lang r1 pos w1 (w2 ++ rest) /\
                    lang r2 (pos + length w1) w2 rest
  | Group _ r' => lang r' pos w rest
  end.

(** an operand as the pattern sees it: a non-empty run of digits and dots *)
Definition pattern_operand (operand : option string) : Prop :=
  match operand with
  | Some n => chars n <> [] /\ in_class dot_or_digit (chars n)
  | None => True
  end.

(** the texts the pattern of [parse_time] matches: the segments that are
    present, in order, and possibly one newline at the very end *)
Definition duration_shaped (time_str : string) : Prop :=
  exists d h m s,
    pattern_operand d /\ pattern_operand h /\ pattern_operand m /\ pattern_operand s /\
    (time_str = duration_text d h m s \/
     time_str = duration_text d h m s +:+ String newline "").

(** the keywords of the segments that are present, in pattern order *)
Definition present_operands (d h m s : option string) : list (string * string) :=
  match d with Some n => [("days", n)] | None => [] end ++
  match h with Some n => [("hours", n)] | None => [] end ++
  match m with Some n => [("minutes", n)] | None => [] end ++
  match s with Some n => [("seconds", n)] | None => [] end.


(** the mapping without the keys [ks], everything else in place *)
Definition without_keys (ks : list string) (cfg : config) : config :=
  List.filter (fun kv => negb (existsb (String.eqb kv.1) ks)) cfg.

(** what the loop body stores in a row read as [r0] *)
Definition enriched (p bound : string) (first dt : Q) (r0 r : gmap string cell) : Prop :=
  r !! "percentile" = Some (CStr p) /\
  r !! "bound" = Some (CStr bound) /\
  r !! "timestep_formatted" =
    match r0 !! "timestep" with
    | Some (CNum t) => Some (CTime (fill_timestep t first dt))
    | _ => None
    end /\
  keeps r0 r.

(** the scenario has no file of its own for the entry *)
Definition only_shared (read_csv : string -> result DataFrame) (output_path : string)
    (i : nat) (e : string * jval) : Prop :=
  forall fname, e.2 = JStr fname ->
    exists q, read_csv (path_join (scenario_path output_path i) fname)
              = raise (FileNotFoundError q).

(** a table has what [make_figure] needs from the loader *)
Definition loader_table (df : DataFrame) : Prop :=
  has_column "timestep" df = true /\
  has_column "percentile" df = true /\
  has_column "timestep_formatted" df = true /\
  has_column "bound" df = true /\
  Forall (fun r : gmap string cell =>
            exists p q, r !! "percentile" = Some (CStr p) /\ py_float p = ok q) (rows df).


(** the style of the [else] branch of the figure builder *)
Definition middle_style (tr : Scatter) : Prop :=
  sc_fill tr = "tonexty" /\ sc_fillcolor tr = Some "rgba(75, 0, 130,0.2)" /\
  sc_mode tr = None /\ sc_line_width tr = None /\ sc_line_color tr = "indigo".

(** ** Numbers in file names *)

(** the text does not start with a digit *)
Definition no_digit_start (s : list ascii) : Prop :=
  match s with
  | [] => True
  | c :: _ => is_digit c = false
  end.

(** the text does not start with a digit, nor with a dot and a digit *)
Definition no_number_start (s : list ascii) : Prop :=
  match s with
  | [] => True
  | c :: s' => is_digit c = false /\ (is_dot c = true -> no_digit_start s')
  end.

Fixpoint ends_with_dot (l : list ascii) : bool :=
  match l with
  | [] => false
  | [c] => is_dot c
  | _ :: l' => ends_with_dot l'
  end.

(** digits, possibly followed by a dot and more digits *)
Definition decimal_number (int_part frac_part : list ascii) : Prop :=
  int_part <> [] /\ in_class is_digit int_part /\ in_class is_digit frac_part.

(** the text of such a number: the dot is there when there are decimals *)
Definition number_text (int_part frac_part : list ascii) : list ascii :=
  match frac_part with
  | [] => int_part
  | _ => int_part ++ "."%char :: frac_part
  end.


(** ** More small runs *)

Definition sample_tables : list DataFrame :=
  match (sample_load sample_files sample_config).1 with
  | inr (tables, _) => tables
  | inl _ => []
  end.

Definition sample_figure : Figure :=
  match figure_of sample_repr sample_table ["0.05"; "0.5"; "0.95"] (JStr "%Y-%m-%d")
          "hospitalized" "Hospitalized patients" with
  | inr f => f
  | inl _ => mkFigure [] None
  end.

(** two entries for the same file: one percentile, two bounds *)
Definition mixed_config : config :=
  [("output_path", JStr "out"); ("num_scenarios", JInt 1);
   ("time_step_format", JStr "%Y-%m-%d"); ("time_delta", JStr "1d");
   ("first_time_step", JStr "2020-04-01");
   ("summary_lower", JStr "summary_0.5.csv");
   ("summary_upper", JStr "summary_0.5.csv")].

Definition mixed_table : DataFrame :=
  match (sample_load sample_files mixed_config).1 with
  | inr (t :: _, _) => t
  | _ => mkDataFrame [] []
  end.

Definition mixed_figure : Figure :=
  match figure_of sample_repr mixed_table ["0.5"] (JStr "%Y-%m-%d")
          "hospitalized" "Hospitalized patients" with
  | inr f => f
  | inl _ => mkFigure [] None
  end.

Definition sample_upper_table : DataFrame :=
  match load_summary sample_files "out" "out_0/" (inject_Z 0) (inject_Z 86400)
          ("summary_upper", JStr "summary_0.95.csv") with
  | inr df => df
  | inl _ => mkDataFrame [] []
  end.

(** [sample_table] without its [bound] column *)
Definition sample_no_bound : DataFrame :=
  mkDataFrame ["timestep"; "hospitalized"; "percentile"; "timestep_formatted"]
    (rows sample_table).

Definition two_labels : dict string :=
  [("hospitalized", "Hospitalized patients"); ("icu", "Patients in intensive care")].

(** a file without a [timestep] column *)
Definition daily_files (path : string) : result DataFrame :=
  ok (table_of ["day"; "hospitalized"] [[0; 10]; [1; 11]]%Z).

Definition sample_html (f : Figure) : string := "<html><body><div>chart</div></body></html>".

Definition bare_html (f : Figure) : string := "<div>chart</div>".

Definition writes_ok (n : nat) (data : string) : result unit := ok tt.


(** * Properties *)

(** ** Strings and the matching engine *)

Lemma chars_app (a b : string) : chars (a +:+ b) = chars a ++ chars b.
Proof.
  induction a as [|c a IH]; simpl; [reflexivity|].
  unfold chars in *. simpl. now rewrite IH.
Qed.

Lemma str_chars (s : string) : str (chars s) = s.
Proof. apply string_of_list_ascii_of_string. Qed.

Lemma chars_str (l : list ascii) : chars (str l) = l.
Proof. apply list_ascii_of_string_of_list_ascii. Qed.

Section LazyRun.
Context {A : Type} (p : ascii -> bool) (u : ascii).
Hypothesis u_outside : p u = false.

Variable K : nat -> list ascii -> option A.
Hypothesis K_nil : forall pos, K pos [] = None.
Hypothesis K_other : forall pos c s, c <> u -> K pos (c :: s) = None.

Lemma star_lazy_run (num rest : list ascii) (pos : nat) :
  in_class p num ->
  star_lazy p pos (num ++ u :: rest) K = K (pos + length num) (u :: rest).
Proof.
  intros Hnum. revert pos.
  induction Hnum as [|c num Hc _ IH]; intros pos; simpl.
  - rewrite u_outside, Nat.add_0_r. now destruct (K pos (u :: rest)).
  - rewrite K_other by (intros ->; congruence).
    rewrite Hc, IH. f_equal. lia.
Qed.

Lemma star_lazy_stuck (num tail : list ascii) (pos : nat) :
  in_class p num ->
  (tail = [] \/ exists v rest, tail = v :: rest /\ p v = false /\ v <> u) ->
  star_lazy p pos (num ++ tail) K = None.
Proof.
  intros Hnum Htail. revert pos.
  induction Hnum as [|c num Hc _ IH]; intros pos; simpl.
  - destruct Htail as [->|(v & rest & -> & Hv & Hvu)]; simpl.
    + now rewrite K_nil.
    + now rewrite K_other, Hv.
  - rewrite K_other by (intros ->; congruence).
    now rewrite Hc, IH.
Qed.
End LazyRun.

Section Segment.
Context {A : Type} (name : string) (u : ascii).
Hypothesis u_outside : dot_or_digit u = false.

Lemma segment_body_present (num rest : list ascii) (pos : nat) (caps : captures)
    (k : nat -> list ascii -> captures -> option A) :
  num <> [] -> in_class dot_or_digit num ->
  exec (Seq (Group name (PlusLazy dot_or_digit)) (Lit u)) pos (num ++ u :: rest) caps k
  = k (S (pos + length num)) rest ((name, num) :: caps).
Proof.
  intros Hne Hnum. destruct num as [|c num]; [congruence|].
  inversion Hnum as [|? ? Hc Hnum']; subst. simpl. rewrite Hc.
  rewrite (star_lazy_run dot_or_digit u u_outside); auto.
  - simpl. rewrite Ascii.eqb_refl. f_equal; [lia|].
    replace (S (pos + length num) - pos) with (S (length num)) by lia.
    simpl. rewrite firstn_app, firstn_all, Nat.sub_diag. simpl.
    now rewrite app_nil_r.
  - intros pos' c' s' Hne'. simpl.
    destruct (Ascii.eqb_spec u c'); congruence.
Qed.

Lemma segment_body_absent (s : list ascii) (pos : nat) (caps : captures)
    (k : nat -> list ascii -> captures -> option A) :
  no_segment u s ->
  exec (Seq (Group name (PlusLazy dot_or_digit)) (Lit u)) pos s caps k = None.
Proof.
  intros (num & tail & -> & Hnum & Htail).
  destruct num as [|c num]; simpl.
  - destruct Htail as [->|(v & rest & -> & Hv & _)]; simpl; [reflexivity|].
    now rewrite Hv.
  - inversion Hnum as [|? ? Hc Hnum']; subst. rewrite Hc.
    apply (star_lazy_stuck dot_or_digit u u_outside); auto.
    intros pos' c' s' Hne'. simpl.
    destruct (Ascii.eqb_spec u c'); congruence.
Qed.

Lemma segment_present (num rest : list ascii) (pos : nat) (caps : captures)
    (k : nat -> list ascii -> captures -> option A) (a : A) :
  num <> [] -> in_class dot_or_digit num ->
  k (S (pos + length num)) rest ((name, num) :: caps) = Some a ->
  exec (time_segment name u) pos (num ++ u :: rest) caps k = Some a.
Proof.
  intros Hne Hnum Hk. unfold time_segment.
  change (exec (Opt ?r) ?pos ?s ?caps ?k)
    with (match exec r pos s caps k with Some a => Some a | None => k pos s caps end).
  now rewrite segment_body_present, Hk.
Qed.

Lemma segment_absent (s : list ascii) (pos : nat) (caps : captures)
    (k : nat -> list ascii -> captures -> option A) :
  no_segment u s ->
  exec (time_segment name u) pos s caps k = k pos s caps.
Proof.
  intros Hs. unfold time_segment.
  change (exec (Opt ?r) ?pos ?s ?caps ?k)
    with (match exec r pos s caps k with Some a => Some a | None => k pos s caps end).
  now rewrite segment_body_absent.
Qed.
End Segment.

(** ** The duration parser on well-formed texts *)




Lemma exec_seq {A} r1 r2 pos s caps (k : nat -> list ascii -> captures -> option A) :
  exec (Seq r1 r2) pos s caps k
  = exec r1 pos s caps (fun pos' s' caps' => exec r2 pos' s' caps' k).
Proof. reflexivity. Qed.





(** ** Whole numbers through [float] and [pd.Timedelta] *)









Example parse_time_2h13m : parse_time "2h13m" = ok (inject_Z (2 * 3600 + 13 * 60)).
Proof. reflexivity. Qed.

Example parse_time_2d8h5m20s :
  parse_time "2d8h5m20s" = ok (inject_Z (2 * 86400 + 8 * 3600 + 5 * 60 + 20)).
Proof. reflexivity. Qed.

Example parse_time_fractional :
  exists td, parse_time "1.5h" = ok td /\ Qeq td (inject_Z 5400).
Proof. eexists. split; [reflexivity|]. reflexivity. Qed.

Example parse_time_two_dots : parse_time "1.2.3h" =
  raise (ValueError "could not convert string to float: '1.2.3'").
Proof. reflexivity. Qed.

(** ** The assertion of the duration parser *)

Lemma rmap_float_error (l : list (string * string)) (e : exn) :
  rmap (fun kv => let* v := py_float kv.2 in ok (kv.1, v)) l = inl e ->
  exists msg, e = ValueError msg.
Proof.
  induction l as [|kv l IH]; simpl; [discriminate|].
  unfold py_float at 1.
  destruct (scan_decimal (chars kv.2) 0 false 1 0); simpl.
  - destruct (rmap _ l); simpl; [|discriminate].
    intros [= <-]. now apply IH.
  - intros [= <-]. eauto.
Qed.

(** Claim C1, as the code has it: the assertion is about the match object
    alone.  The empty text matches the pattern with no group set, passes the
    assertion and fails later, in the [pd.Timedelta] call without keywords,
    with that constructor's [ValueError]; a text the pattern does not match,
    such as [abc], is rejected by the assertion, whose message lists the
    valid examples. *)
Theorem parse_time_assertion :
  (forall s, parse_time s = raise (AssertionError (assert_message s))
             <-> re_match time_regex s = None) /\
  re_match time_regex "" = Some [] /\
  parse_time "" = raise (ValueError
    "cannot construct a Timedelta without a value/unit or descriptive keywords (days,seconds....)") /\
  parse_time "abc" = raise (AssertionError
    "Could not parse any time information from 'abc'.  Examples of valid strings: '8h', '2d8h5m20s', '2m4s'").
Proof.
  split; [|repeat split; reflexivity].
  intros s. unfold parse_time.
  destruct (re_match time_regex s) as [parts|]; [|tauto].
  split; [|discriminate].
  destruct (rmap _ _) as [e|params] eqn:Hr; simpl.
  - apply rmap_float_error in Hr as [msg ->]. discriminate.
  - unfold pd_Timedelta. destruct params; [discriminate|].
    cbv zeta. destruct (_ <=? _)%Z; discriminate.
Qed.

(** The empty text is not rejected by the assertion. *)
Lemma parse_time_empty_not_assertion :
  parse_time "" <> raise (AssertionError (assert_message "")).
Proof. discriminate. Qed.

(** ** The configuration mapping across [load_output_data] *)

Lemma dict_get_del_ne {V} (k k' : string) (d : dict V) :
  k <> k' -> dict_get k (dict_del k' d) = dict_get k d.
Proof.
  intros Hne. induction d as [|[k0 v] d IH]; simpl; [reflexivity|].
  destruct (String.eqb_spec k0 k') as [->|Hk0]; simpl.
  - destruct (String.eqb_spec k' k); [congruence | exact IH].
  - destruct (String.eqb_spec k0 k); [reflexivity | exact IH].
Qed.

Lemma dict_get_del_eq {V} (k : string) (d : dict V) : dict_get k (dict_del k d) = None.
Proof.
  induction d as [|[k0 v] d IH]; simpl; [reflexivity|].
  destruct (String.eqb_spec k0 k) as [->|Hk0]; simpl; [exact IH|].
  destruct (String.eqb_spec k0 k); [congruence | exact IH].
Qed.

Lemma five_pops (cfg : config) :
  dict_del "first_time_step"
    (dict_del "time_delta"
       (dict_del "time_step_format"
          (dict_del "num_scenarios" (dict_del "output_path" cfg))))
  = without_popped cfg.
Proof.
  unfold without_popped, dict_del.
  induction cfg as [|[k v] cfg IH]; [reflexivity|].
  cbn [List.filter existsb popped_keys fst].
  destruct (String.eqb k "output_path"); cbn [negb orb List.filter fst]; [exact IH|].
  destruct (String.eqb k "num_scenarios"); cbn [negb orb List.filter fst]; [exact IH|].
  destruct (String.eqb k "time_step_format"); cbn [negb orb List.filter fst]; [exact IH|].
  destruct (String.eqb k "time_delta"); cbn [negb orb List.filter fst]; [exact IH|].
  destruct (String.eqb k "first_time_step"); cbn [negb orb List.filter fst]; [exact IH|].
  now rewrite IH.
Qed.

Lemma summary_files_without_popped (cfg : config) :
  summary_files_of (without_popped cfg) = summary_files_of cfg.
Proof.
  unfold summary_files_of, without_popped.
  induction cfg as [|[k v] cfg IH]; [reflexivity|].
  cbn [List.filter fst].
  destruct (existsb (String.eqb k) popped_keys) eqn:Hk; cbn [negb List.filter fst].
  - assert (startswith k "summary_" = false) as ->; [|exact IH].
    cbn [existsb popped_keys] in Hk.
    repeat match type of Hk with
      | (String.eqb _ _ || _)%bool = true =>
          apply orb_true_iff in Hk as [Hk|Hk];
          [apply String.eqb_eq in Hk; subst k; reflexivity|]
      end.
    discriminate.
  - now rewrite IH.
Qed.

Lemma without_popped_get (cfg : config) (k : string) :
  dict_get k (without_popped cfg) =
  if existsb (String.eqb k) popped_keys then None else dict_get k cfg.
Proof.
  unfold without_popped.
  induction cfg as [|[k0 v] cfg IH]; cbn [List.filter dict_get fst].
  - now destruct (existsb _ _).
  - destruct (existsb (String.eqb k0) popped_keys) eqn:Hk0;
      cbn [negb dict_get]; rewrite IH;
      destruct (String.eqb_spec k0 k) as [->|]; try reflexivity;
      now rewrite Hk0.
Qed.

(** ** The scenario loader *)

Section LoaderProps.
Variable read_csv : string -> result DataFrame.
Variable strptime : string -> string -> result Q.
Variable int_of_string : string -> result Z.
Variable config_json : result config.

Lemma load_body_run cfg output_path num_scenarios fmt time_delta first n :
  preamble_ok strptime int_of_string cfg output_path num_scenarios fmt time_delta first n ->
  load_body read_csv strptime int_of_string cfg =
  (let* all := rmap (load_scenario read_csv output_path (summary_files_of cfg)
                       first time_delta) (seq 0 (Z.to_nat n)) in
   ok (all, fmt),
   without_popped cfg).
Proof.
  intros (H1 & H2 & H3 & (s & H4 & Hs) & (f & H5 & Hf) & Hn).
  unfold load_body, bindM, pop, lift, items, retM.
  unfold ok in *.
  rewrite H1.
  rewrite dict_get_del_ne, H2 by discriminate.
  rewrite !dict_get_del_ne, H3 by discriminate.
  rewrite !dict_get_del_ne, H4 by discriminate.
  cbn [as_str rbind ok]. rewrite Hs.
  rewrite !dict_get_del_ne, H5 by discriminate.
  rewrite Hf, Hn, five_pops, summary_files_without_popped.
  unfold rbind. now destruct (rmap _ _).
Qed.

Lemma load_body_inv cfg r cfg' :
  load_body read_csv strptime int_of_string cfg = (inr r, cfg') ->
  cfg' = without_popped cfg /\
  exists output_path num_scenarios time_delta first n,
    preamble_ok strptime int_of_string cfg output_path num_scenarios r.2 time_delta first n /\
    rmap (load_scenario read_csv output_path (summary_files_of cfg) first time_delta)
         (seq 0 (Z.to_nat n)) = ok r.1.
Proof.
  unfold load_body, bindM, pop, lift, items, retM, raise, ok.
  destruct (dict_get "output_path" cfg) as [out|] eqn:H1; [|discriminate].
  rewrite dict_get_del_ne by discriminate.
  destruct (dict_get "num_scenarios" cfg) as [nj|] eqn:H2; [|discriminate].
  rewrite !dict_get_del_ne by discriminate.
  destruct (dict_get "time_step_format" cfg) as [fmt|] eqn:H3; [|discriminate].
  rewrite !dict_get_del_ne by discriminate.
  destruct (dict_get "time_delta" cfg) as [tdj|] eqn:H4; [|discriminate].
  destruct tdj as [tds|]; cbv beta iota delta [as_str rbind raise ok]; [|discriminate].
  destruct (parse_time tds) as [|dt] eqn:Hs; [discriminate|].
  rewrite !dict_get_del_ne by discriminate.
  destruct (dict_get "first_time_step" cfg) as [fts|] eqn:H5; [|discriminate].
  destruct (py_strptime strptime fts fmt) as [|t0] eqn:Hf; [discriminate|].
  destruct (py_int int_of_string nj) as [|n] eqn:Hn; [discriminate|].
  rewrite five_pops, summary_files_without_popped.
  destruct (rmap _ _) as [|all] eqn:Hall; [discriminate|].
  intros [= <- <-]. split; [reflexivity|].
  exists out, nj, dt, t0, n. split; [|exact Hall].
  unfold preamble_ok. eauto 10.
Qed.

Lemma load_summary_eq output_path scen first dt entry fname p ps :
  entry.2 = JStr fname ->
  findall percentile_regex fname = p :: ps ->
  load_summary read_csv output_path scen first dt entry =
  rbind (read_with_fallback read_csv scen output_path fname)
        (annotate entry.1 p first dt).
Proof.
  intros Hn Hp. unfold load_summary. rewrite Hn. cbn [as_str rbind ok].
  rewrite Hp. reflexivity.
Qed.

Lemma load_summary_inv output_path scen first dt entry df :
  load_summary read_csv output_path scen first dt entry = ok df ->
  exists fname p ps raw,
    entry.2 = JStr fname /\
    findall percentile_regex fname = p :: ps /\
    read_with_fallback read_csv scen output_path fname = ok raw /\
    annotate entry.1 p first dt raw = ok df.
Proof.
  unfold load_summary. destruct entry.2 as [fname|]; [|discriminate].
  cbn [as_str rbind ok].
  destruct (findall percentile_regex fname) as [|p ps] eqn:Hp; [discriminate|].
  cbn [rbind ok].
  destruct (read_with_fallback _ _ _ _) as [|raw] eqn:Hr; [discriminate|].
  intros H. exists fname, p, ps, raw. repeat split; assumption.
Qed.
End LoaderProps.

(** ** Loops that stop at the first exception *)

Lemma rmap_ok_Forall2 {A B} (f : A -> result B) (l : list A) (ys : list B) :
  rmap f l = ok ys <-> Forall2 (fun x y => f x = ok y) l ys.
Proof.
  revert ys. induction l as [|x l IH]; intros ys; simpl.
  - split; [intros [= <-]; constructor | inversion 1; reflexivity].
  - split.
    + destruct (f x) as [|y] eqn:Hx; [discriminate|]. simpl.
      destruct (rmap f l) as [|ys'] eqn:Hl; [discriminate|]. simpl.
      intros [= <-]. constructor; [exact Hx | now apply IH].
    + inversion 1 as [|? y ? ys' Hx Hl]; subst.
      apply IH in Hl. rewrite Hx. simpl. rewrite Hl. reflexivity.
Qed.

Lemma rmap_total {A B} (f : A -> result B) (l : list A) :
  (forall x, In x l -> exists y, f x = ok y) -> exists ys, rmap f l = ok ys.
Proof.
  induction l as [|x l IH]; intros H; simpl; [now eexists|].
  destruct (H x) as [y Hy]; [now left|].
  destruct IH as [ys Hys]; [intros; apply H; now right|].
  rewrite Hy. simpl. rewrite Hys. simpl. now eexists.
Qed.

Lemma rmap_first_error {A B} (f : A -> result B) (before after : list A) (x : A) (e : exn) :
  (forall b, In b before -> exists y, f b = ok y) ->
  f x = raise e ->
  rmap f (before ++ x :: after) = raise e.
Proof.
  induction before as [|b before IH]; intros Hb Hx; simpl.
  - now rewrite Hx.
  - destruct (Hb b) as [y Hy]; [now left|]. rewrite Hy. simpl.
    rewrite IH; [reflexivity | intros; apply Hb; now right | exact Hx].
Qed.

Lemma rmap_length {A B} (f : A -> result B) (l : list A) (ys : list B) :
  rmap f l = ok ys -> length ys = length l.
Proof.
  intros H. apply rmap_ok_Forall2 in H.
  induction H; simpl; congruence.
Qed.

(** ** The table of one summary file *)

Lemma annotate_rows file_type p first dt raw df :
  annotate file_type p first dt raw = ok df ->
  Forall2 (fun r0 r =>
             r !! "bound" = Some (CStr (bound_of file_type)) /\
             r !! "percentile" = Some (CStr p) /\
             keeps r0 r) (rows raw) (rows df).
Proof.
  unfold annotate, df_apply. cbn [rows assign_scalar].
  destruct (map _ (rows raw)) as [|r1 rs] eqn:Hm; [discriminate|].
  rewrite <- Hm. clear Hm r1 rs.
  destruct (rmap _ _) as [|series] eqn:Hs; [discriminate|].
  cbn [rbind]. intros [= <-]. cbn [rows assign_scalar assign_series].
  apply rmap_ok_Forall2 in Hs.
  remember (timestep_formatted_of _ _ _) as f eqn:Hf. clear Hf.
  revert series Hs.
  induction (rows raw) as [|r0 l IH]; intros series Hs; cbn [map] in *.
  - inversion Hs; subst. constructor.
  - inversion Hs as [|? v ? series' Hv Hl]; subst. cbn [zip_with map fst snd].
    constructor; [|now apply IH].
    split; [apply lookup_insert_eq|].
    split.
    + rewrite lookup_insert_ne by discriminate.
      destruct v; cbn [set_cell].
      * rewrite lookup_insert_ne by discriminate. apply lookup_insert_eq.
      * rewrite lookup_delete_ne by discriminate. apply lookup_insert_eq.
    + intros c H1 H2 H3.
      rewrite lookup_insert_ne by congruence.
      destruct v; cbn [set_cell].
      * rewrite !lookup_insert_ne by congruence. reflexivity.
      * rewrite lookup_delete_ne, lookup_insert_ne by congruence. reflexivity.
Qed.

Lemma has_column_add (c c' : string) (cols : list string) :
  existsb (String.eqb c) (add_column c' cols) =
  (existsb (String.eqb c) cols || String.eqb c c')%bool.
Proof.
  unfold add_column.
  destruct (existsb (String.eqb c') cols) eqn:H.
  - destruct (String.eqb_spec c c') as [->|]; [|now rewrite orb_false_r].
    now rewrite H.
  - rewrite existsb_app. simpl. now rewrite orb_false_r.
Qed.

Lemma df_apply_rows f df :
  rows df <> [] -> df_apply f df = rmap f (rows df).
Proof. unfold df_apply. now destruct (rows df). Qed.


(** ** Where the bound of a file comes from *)

(** Claim C3, as the code has it: the bound of a summary entry is read off
    its configuration key ([file_type]), not off the name of the CSV file:
    every row of the table loaded for the entry carries "upper" when the key
    contains "upper", else "lower" when the key contains "lower", else
    "middle". *)
Theorem bound_from_config_key read_csv output_path scen first dt
    (file_type : string) (file_name : jval) (df : DataFrame) :
  load_summary read_csv output_path scen first dt (file_type, file_name) = ok df ->
  Forall (fun r : gmap string cell => r !! "bound" = Some (CStr (bound_of file_type)))
         (rows df) /\
  (str_in "upper" file_type = true -> bound_of file_type = "upper") /\
  (str_in "upper" file_type = false -> str_in "lower" file_type = true ->
   bound_of file_type = "lower") /\
  (str_in "upper" file_type = false -> str_in "lower" file_type = false ->
   bound_of file_type = "middle").
Proof.
  intros H. split.
  - apply load_summary_inv in H as (fname & p & ps & raw & _ & _ & _ & Ha).
    apply annotate_rows in Ha. cbn [fst] in Ha.
    induction Ha as [|r0 r l0 l [Hb _] _ IH]; constructor; assumption.
  - unfold bound_of. repeat split.
    + now intros ->.
    + now intros -> ->.
    + now intros -> ->.
Qed.

Lemma bound_from_config_key_witness :
  exists df,
    load_summary sample_files "out" "out_0/" (inject_Z 0) (inject_Z 86400)
      ("summary_upper", JStr "summary_0.95.csv") = ok df /\
    Forall (fun r : gmap string cell => r !! "bound" = Some (CStr "upper")) (rows df).
Proof.
  eexists. split; [vm_compute; reflexivity|].
  apply (bound_from_config_key sample_files "out" "out_0/" (inject_Z 0) (inject_Z 86400)
           "summary_upper" (JStr "summary_0.95.csv")).
  vm_compute. reflexivity.
Defined.

(** A file named [summary_0.1_upper.csv] under a key without "upper" is
    loaded with the bound "middle". *)
Lemma bound_not_from_file_name :
  str_in "upper" "summary_0.1_upper.csv" = true /\
  bounds_of
    (sample_load (fun _ => ok (sample_csv 10))
       [("output_path", JStr "out"); ("num_scenarios", JInt 1);
        ("time_step_format", JStr "%Y-%m-%d"); ("time_delta", JStr "1d");
        ("first_time_step", JStr "2020-04-01");
        ("summary_a", JStr "summary_0.1_upper.csv")])
  = ok [ok [Some (CStr "middle"); Some (CStr "middle")]].
Proof. split; vm_compute; reflexivity. Qed.

(** ** The mapping after a successful load *)

(** Claim C10.  [load_output_data] mutates the mapping it is given: after
    a successful call the keys output_path, num_scenarios, time_step_format,
    time_delta and first_time_step, which were present, are gone, and every
    other entry, the summary entries among them, is still there with its
    value and in its place. *)
Theorem load_output_data_pops_five_keys read_csv strptime int_of_string config_json
    (cfg cfg' : config) (r : list DataFrame * jval) :
  load_output_data read_csv strptime int_of_string config_json (Some cfg) = (ok r, cfg') ->
  cfg' = without_popped cfg /\
  (forall k, In k popped_keys -> dict_get k cfg <> None /\ dict_get k cfg' = None) /\
  (forall k, ~ In k popped_keys -> dict_get k cfg' = dict_get k cfg) /\
  summary_files_of cfg' = summary_files_of cfg.
Proof.
  cbn [load_output_data]. intros H.
  apply load_body_inv in H as
    (-> & out & nj & dt & t0 & n & (H1 & H2 & H3 & (s & H4 & _) & (f & H5 & _) & _) & _).
  split; [reflexivity|]. split; [|split].
  - intros k Hk. rewrite without_popped_get.
    split.
    + cbn [In popped_keys] in Hk.
      destruct Hk as [<-|[<-|[<-|[<-|[<-|[]]]]]]; congruence.
    + assert (existsb (String.eqb k) popped_keys = true) as ->; [|reflexivity].
      apply existsb_exists. exists k. split; [exact Hk | apply String.eqb_refl].
  - intros k Hk. rewrite without_popped_get.
    destruct (existsb (String.eqb k) popped_keys) eqn:He; [|reflexivity].
    apply existsb_exists in He as (k' & Hin & Heq).
    apply String.eqb_eq in Heq. now subst.
  - apply summary_files_without_popped.
Qed.

Lemma load_output_data_pops_five_keys_witness :
  exists r,
    sample_load sample_files sample_config =
      (ok r, [("summary_lower", JStr "summary_0.05.csv");
              ("summary_mid", JStr "summary_0.5.csv");
              ("summary_upper", JStr "summary_0.95.csv");
              ("output_html_file", JStr "dashboard.html")]) /\
    without_popped sample_config =
      [("summary_lower", JStr "summary_0.05.csv");
       ("summary_mid", JStr "summary_0.5.csv");
       ("summary_upper", JStr "summary_0.95.csv");
       ("output_html_file", JStr "dashboard.html")].
Proof.
  eexists. split; [vm_compute; reflexivity|].
  symmetry.
  refine (proj1 (load_output_data_pops_five_keys sample_files sample_strptime sample_int
                   (raise (FileNotFoundError "config.json")) sample_config _ _ _)).
  vm_compute. reflexivity.
Defined.

(** ** The tables of a run *)

Section Tables.
Variable read_csv : string -> result DataFrame.
Variable strptime : string -> string -> result Q.
Variable int_of_string : string -> result Z.
Variable config_json : result config.




End Tables.


(** ** Read failures *)

Section ReadFailures.
Variable read_csv : string -> result DataFrame.
Variable strptime : string -> string -> result Q.
Variable int_of_string : string -> result Z.
Variable config_json : result config.

Lemma read_with_fallback_error scen output_path fname err :
  (read_csv (path_join scen fname) = raise err /\
   (forall q, err <> FileNotFoundError q)) \/
  ((exists q, read_csv (path_join scen fname) = raise (FileNotFoundError q)) /\
   read_csv (path_join output_path fname) = raise err) ->
  read_with_fallback read_csv scen output_path fname = raise err.
Proof.
  unfold read_with_fallback.
  intros [[-> Hne]|[[q ->] Hb]].
  - destruct err; try reflexivity. now contradiction (Hne path).
  - exact Hb.
Qed.

(** Claim C4, as the code has it.  For the first entry [e] of the first
    scenario [i] whose read does not simply succeed: a file-not-found at
    the scenario's path is answered by reading the base path and going
    on with that table; any other failure at the scenario's path, and any
    failure at the base path, is what the whole call raises.  No table is
    returned then, and the mapping is left without the five keys popped
    before the loops, not as it was passed. *)
Theorem read_failures_propagate (cfg : config) (output_path : string)
    (num_scenarios fmt : jval) (time_delta first : Q) (n : Z)
    (i : nat) (before after : list (string * jval)) (e : string * jval)
    (fname p : string) (ps : list string) :
  preamble_ok strptime int_of_string cfg (JStr output_path) num_scenarios fmt
    time_delta first n ->
  (Z.of_nat i < n)%Z ->
  summary_files_of cfg = before ++ e :: after ->
  (forall j, j < i ->
     exists t, load_scenario read_csv (JStr output_path) (summary_files_of cfg)
                 first time_delta j = ok t) ->
  (forall b, In b before ->
     exists df, load_summary read_csv output_path (scenario_path output_path i)
                  first time_delta b = ok df) ->
  e.2 = JStr fname ->
  findall percentile_regex fname = p :: ps ->
  ((exists q, read_csv (path_join (scenario_path output_path i) fname)
              = raise (FileNotFoundError q)) ->
   load_summary read_csv output_path (scenario_path output_path i) first time_delta e
   = rbind (read_csv (path_join output_path fname))
           (annotate e.1 p first time_delta)) /\
  (forall err,
     (read_csv (path_join (scenario_path output_path i) fname) = raise err /\
      (forall q, err <> FileNotFoundError q)) \/
     ((exists q, read_csv (path_join (scenario_path output_path i) fname)
                 = raise (FileNotFoundError q)) /\
      read_csv (path_join output_path fname) = raise err) ->
     load_output_data read_csv strptime int_of_string config_json (Some cfg)
     = (raise err, without_popped cfg)).
Proof.
  intros Hpre Hi Hsplit Hprev Hbefore Hn Hp. split.
  - intros [q Hq].
    rewrite (load_summary_eq _ _ _ _ _ _ fname p ps Hn Hp).
    unfold read_with_fallback. now rewrite Hq.
  - intros err Herr.
    cbn [load_output_data]. rewrite (load_body_run _ _ _ _ _ _ _ _ _ _ Hpre).
    f_equal.
    assert (load_scenario read_csv (JStr output_path) (summary_files_of cfg)
              first time_delta i = raise err) as Hscen.
    { unfold load_scenario. cbn [as_str rbind ok]. rewrite Hsplit.
      rewrite (rmap_first_error _ before after e err); [reflexivity | exact Hbefore |].
      rewrite (load_summary_eq _ _ _ _ _ _ fname p ps Hn Hp).
      now rewrite (read_with_fallback_error _ _ _ err Herr). }
    replace (Z.to_nat n) with (i + S (Z.to_nat n - S i)) by lia.
    rewrite seq_app. cbn [seq plus].
    rewrite (rmap_first_error _ (seq 0 i) _ i err); [reflexivity | | exact Hscen].
    intros j Hj. apply in_seq in Hj. apply Hprev. lia.
Qed.
End ReadFailures.

Lemma read_failures_propagate_witness :
  load_summary denied_files "out" (scenario_path "out" 1) (inject_Z 0) (inject_Z 86400)
    ("summary_lower", JStr "summary_0.05.csv")
  = rbind (denied_files "out/summary_0.05.csv")
          (annotate "summary_lower" "0.05" (inject_Z 0) (inject_Z 86400)) /\
  sample_load (fun path => if String.eqb path "out_1/summary_0.05.csv"
                           then raise (OtherError "Permission denied")
                           else denied_files path) sample_config
  = (raise (OtherError "Permission denied"), without_popped sample_config).
Proof.
  split.
  - refine (proj1 (read_failures_propagate denied_files sample_strptime sample_int
                     (raise (FileNotFoundError "config.json")) sample_config "out"
                     (JInt 2) (JStr "%Y-%m-%d") (inject_Z 86400) (inject_Z 0) 2
                     1 [] _ ("summary_lower", JStr "summary_0.05.csv")
                     "summary_0.05.csv" "0.05" [] _ _ _ _ _ _ _) _).
    + unfold preamble_ok. repeat split; try reflexivity; eexists; split; reflexivity.
    + lia.
    + reflexivity.
    + intros j Hj. assert (j = 0) as -> by lia. eexists. vm_compute. reflexivity.
    + intros b [].
    + reflexivity.
    + vm_compute. reflexivity.
    + eexists. vm_compute. reflexivity.
  - refine (proj2 (read_failures_propagate _ sample_strptime sample_int
                     (raise (FileNotFoundError "config.json")) sample_config "out"
                     (JInt 2) (JStr "%Y-%m-%d") (inject_Z 86400) (inject_Z 0) 2
                     1 [] _ ("summary_lower", JStr "summary_0.05.csv")
                     "summary_0.05.csv" "0.05" [] _ _ _ _ _ _ _) _ _).
    + unfold preamble_ok. repeat split; try reflexivity; eexists; split; reflexivity.
    + lia.
    + reflexivity.
    + intros j Hj. assert (j = 0) as -> by lia. eexists. vm_compute. reflexivity.
    + intros b [].
    + reflexivity.
    + vm_compute. reflexivity.
    + left. split; [vm_compute; reflexivity | discriminate].
Defined.

(** A failed load does not leave the mapping as it was passed. *)
Lemma read_failure_changes_mapping :
  (sample_load denied_files sample_config).1 = raise (OtherError "Permission denied") /\
  (sample_load denied_files sample_config).2 <> sample_config.
Proof. split; [vm_compute; reflexivity | vm_compute; discriminate]. Qed.

(** ** Sorting and distinct values *)

Lemma insert_sorted_In (a x : string) (l : list string) :
  In x (insert_sorted a l) <-> x = a \/ In x l.
Proof.
  induction l as [|b l IH]; simpl; [intuition|].
  destruct (String.leb a b); simpl; [intuition|].
  rewrite IH. intuition.
Qed.

Lemma insert_sorted_Sorted (a : string) (l : list string) :
  Sorted str_le l -> Sorted str_le (insert_sorted a l).
Proof.
  induction l as [|b l IH]; intros Hs; simpl.
  - repeat constructor.
  - destruct (String.leb a b) eqn:Hab.
    + constructor; [exact Hs | constructor; exact Hab].
    + assert (str_le b a) as Hba.
      { destruct (String.leb_total a b) as [H|H]; [congruence | exact H]. }
      inversion Hs as [|? ? Hs' Hhd]; subst.
      constructor; [now apply IH|].
      destruct l as [|c l]; simpl.
      * now constructor.
      * destruct (String.leb a c); constructor; [exact Hba|].
        now inversion Hhd.
Qed.

Lemma insert_sorted_NoDup (a : string) (l : list string) :
  ~ In a l -> List.NoDup l -> List.NoDup (insert_sorted a l).
Proof.
  induction l as [|b l IH]; intros Ha Hl; simpl.
  - constructor; [tauto | constructor].
  - destruct (String.leb a b).
    + now constructor.
    + inversion Hl; subst. constructor.
      * rewrite insert_sorted_In. simpl in Ha. intuition.
      * apply IH; [simpl in Ha; tauto | assumption].
Qed.

Lemma sorted_In (x : string) (l : list string) : In x (sorted l) <-> In x l.
Proof.
  induction l as [|a l IH]; simpl; [tauto|].
  rewrite insert_sorted_In, IH. intuition.
Qed.

Lemma sorted_Sorted (l : list string) : Sorted str_le (sorted l).
Proof.
  induction l as [|a l IH]; simpl; [constructor | now apply insert_sorted_Sorted].
Qed.

Lemma sorted_NoDup (l : list string) : List.NoDup l -> List.NoDup (sorted l).
Proof.
  induction 1 as [|a l Ha Hl IH]; simpl; [constructor|].
  apply insert_sorted_NoDup; [now rewrite sorted_In | exact IH].
Qed.

Lemma unique_In (x : string) (l : list string) : In x (unique l) <-> In x l.
Proof.
  induction l as [|a l IH]; simpl; [tauto|].
  rewrite filter_In, IH.
  destruct (String.eqb_spec a x); simpl; intuition congruence.
Qed.

Lemma NoDup_filter_bool {A} (f : A -> bool) (l : list A) :
  List.NoDup l -> List.NoDup (List.filter f l).
Proof.
  induction 1 as [|a l Ha Hl IH]; simpl; [constructor|].
  destruct (f a); [|exact IH].
  constructor; [|exact IH]. rewrite filter_In. tauto.
Qed.

Lemma unique_NoDup (l : list string) : List.NoDup (unique l).
Proof.
  induction l as [|a l IH]; simpl; [constructor|].
  constructor; [|now apply NoDup_filter_bool].
  rewrite filter_In, String.eqb_refl. simpl. intuition discriminate.
Qed.

Example sorted_as_text_not_as_number :
  sorted (unique ["9"; "10"; "0.5"; "10"; ".25"]) = [".25"; "0.5"; "10"; "9"].
Proof. reflexivity. Qed.

Example sorted_spec_example :
  sorted (unique ["0.1"; "0.05"; "0.9"]) = ["0.05"; "0.1"; "0.9"].
Proof. reflexivity. Qed.

(** ** The figure builder *)

Lemma as_text_column (col : list (option cell)) (texts : list string) :
  rmap as_text col = ok texts -> col = map (fun s => Some (CStr s)) texts.
Proof.
  intros H. apply rmap_ok_Forall2 in H.
  induction H as [|v s col texts Hv _ IH]; [reflexivity|].
  simpl. rewrite <- IH. f_equal.
  destruct v as [[]|]; simpl in Hv; try discriminate. now injection Hv as ->.
Qed.

Lemma percentiles_of_spec (df : DataFrame) (ps : list string) :
  percentiles_of df = ok ps ->
  Sorted str_le ps /\ List.NoDup ps /\
  forall p, In p ps <-> In (Some (CStr p)) (percentile_column df).
Proof.
  unfold percentiles_of, attribute.
  destruct (has_column "percentile" df); [|discriminate].
  cbn [rbind ok]. fold (percentile_column df).
  destruct (rmap as_text (percentile_column df)) as [|texts] eqn:Ht; [discriminate|].
  cbn [rbind]. intros [= <-].
  apply as_text_column in Ht.
  split; [apply sorted_Sorted|]. split; [apply sorted_NoDup, unique_NoDup|].
  intros p. rewrite sorted_In, unique_In, Ht, in_map_iff.
  split.
  - intros Hp. now exists p.
  - intros (s & [= ->] & Hs). exact Hs.
Qed.

Lemma filter_eq_nonempty (df : DataFrame) (p : string) :
  In (Some (CStr p)) (percentile_column df) ->
  rows (filter_eq "percentile" p df) <> [].
Proof.
  unfold percentile_column. rewrite in_map_iff. intros (r & Hr & Hin).
  cbn [rows filter_eq].
  assert (In r (List.filter
                  (fun r : gmap string cell =>
                     match r !! "percentile" with
                     | Some (CStr s) => String.eqb s p
                     | _ => false
                     end) (rows df))) as H.
  { apply filter_In. split; [exact Hin|]. rewrite Hr. apply String.eqb_refl. }
  intros Hnil. rewrite Hnil in H. exact H.
Qed.

Section FigureProps.
Variable float_repr : Q -> string.

(** The result of [Series.all()] is a [bool], which neither comparison
    with a text finds equal: whatever the bound column holds, the trace is
    the one of the [else] branch. *)
Lemma trace_of_style (df : DataFrame) (y p : string) (tr : Scatter) :
  trace_of float_repr df y p = ok tr ->
  exists xs ys name,
    tr = mkScatter xs ys "tonexty" (Some "rgba(75, 0, 130,0.2)") None "indigo" None name.
Proof.
  unfold trace_of, column, attribute.
  set (sub := filter_eq "percentile" p df).
  destruct (has_column "bound" sub); [|discriminate]. cbn [rbind ok].
  destruct (has_column "timestep_formatted" sub); [|discriminate]. cbn [rbind ok].
  destruct (has_column y sub); [|discriminate]. cbn [rbind ok].
  destruct (trace_name float_repr p) as [|name]; [discriminate|]. cbn [rbind].
  unfold series_all. cbn [eq_text]. intros [= <-]. eauto.
Qed.
End FigureProps.

(** Claim C2 fails on the code: [Series.all()] gives a [bool], so neither
    [== 'lower'] nor [== 'upper'] holds and every subset is drawn by the
    [else] branch.  In the first table of the sample run the rows of
    percentile 0.05 all carry the bound "lower" and those of 0.95 the
    bound "upper"; both traces come out as the one of the middle band
    does, a line of default width (visible) filled to the previous trace,
    not as lines of width 0, and the lower one not without fill. *)
Theorem lower_and_upper_drawn_as_middle :
  map (fun r : gmap string cell => r !! "bound")
      (rows (filter_eq "percentile" "0.05" sample_table))
    = [Some (CStr "lower"); Some (CStr "lower")] /\
  (exists tr,
     trace_of sample_repr sample_table "hospitalized" "0.05" = ok tr /\
     sc_line_width tr = None /\ sc_mode tr = None /\ sc_fill tr = "tonexty" /\
     sc_fillcolor tr = Some "rgba(75, 0, 130,0.2)") /\
  map (fun r : gmap string cell => r !! "bound")
      (rows (filter_eq "percentile" "0.95" sample_table))
    = [Some (CStr "upper"); Some (CStr "upper")] /\
  (exists tr,
     trace_of sample_repr sample_table "hospitalized" "0.95" = ok tr /\
     sc_line_width tr = None /\ sc_mode tr = None /\ sc_fill tr = "tonexty" /\
     sc_fillcolor tr = Some "rgba(75, 0, 130,0.2)").
Proof.
  split; [vm_compute; reflexivity|].
  split; [eexists; split; [vm_compute; reflexivity | repeat split]|].
  split; [vm_compute; reflexivity|].
  eexists; split; [vm_compute; reflexivity | repeat split].
Qed.

Lemma str_le_trans (a b c : string) : str_le a b -> str_le b c -> str_le a c.
Proof.
  unfold str_le, String.leb. revert b c.
  induction a as [|x a IH]; intros [|y b] [|z c]; simpl; try congruence.
  destruct (Ascii.compare x y) eqn:Hxy; [| |discriminate].
  - apply Ascii.compare_eq_iff in Hxy as ->.
    destruct (Ascii.compare y z); [apply IH | reflexivity | discriminate].
  - destruct (Ascii.compare y z) eqn:Hyz; [| |discriminate]; intros _ _.
    + apply Ascii.compare_eq_iff in Hyz as <-. now rewrite Hxy.
    + unfold Ascii.compare in *.
      rewrite N.compare_lt_iff in Hxy, Hyz.
      assert (N.compare (N_of_ascii x) (N_of_ascii z) = Lt) as ->; [|reflexivity].
      apply N.compare_lt_iff. lia.
Qed.

Lemma Sorted_str_le_strongly (l : list string) :
  Sorted str_le l -> StronglySorted str_le l.
Proof. apply Sorted_StronglySorted. intros a b c. apply str_le_trans. Qed.

(** ** The figures of a scenario and the label mapping *)

Lemma dict_keys_set {V} (t : string) (f : V) (d : dict V) :
  dict_keys (dict_set t f d) = add_column t (dict_keys d).
Proof.
  unfold add_column, dict_keys.
  induction d as [|[k v] d IH]; [reflexivity|].
  cbn [dict_set map existsb fst].
  rewrite (String.eqb_sym t k).
  destruct (String.eqb k t); [reflexivity|]. cbn [orb map fst].
  rewrite IH. now destruct (existsb (String.eqb t) (map fst d)).
Qed.

Lemma dict_set_In {V} (t t' : string) (f f' : V) (d : dict V) :
  In (t, f) (dict_set t' f' d) -> (t, f) = (t', f') \/ In (t, f) d.
Proof.
  induction d as [|[k v] d IH]; simpl.
  - intros [H|[]]. left. congruence.
  - destruct (String.eqb_spec k t') as [->|Hk]; simpl.
    + intros [H|H]; [left; congruence | right; now right].
    + intros [H|H]; [right; now left|].
      destruct (IH H); [now left | right; now right].
Qed.

Lemma dict_get_In {V} (k : string) (v : V) (d : dict V) :
  dict_get k d = Some v -> In (k, v) d.
Proof.
  induction d as [|[k' v'] d IH]; simpl; [discriminate|].
  destruct (String.eqb_spec k' k) as [->|]; [intros [= ->]; now left|].
  intros H. right. now apply IH.
Qed.

Lemma dict_get_titles {V} (d d0 : dict V) :
  List.NoDup (dict_keys d) ->
  (forall k v, In (k, v) d -> dict_get k d0 = Some v) ->
  forall titles,
    Forall2 (fun y t => dict_get y d0 = Some t) (dict_keys d) titles ->
    titles = map snd d.
Proof.
  intros _ Hd0. induction d as [|[k v] d IH]; intros titles H.
  - now inversion H.
  - inversion H as [|? t ? titles' Ht Hrest]; subst. cbn [map snd]. f_equal.
    + rewrite (Hd0 k v) in Ht by now left. congruence.
    + apply IH; [|exact Hrest]. intros k' v' Hin. apply Hd0. now right.
Qed.

Lemma NoDup_dict_get {V} (d : dict V) (k : string) (v : V) :
  List.NoDup (dict_keys d) -> In (k, v) d -> dict_get k d = Some v.
Proof.
  induction d as [|[k' v'] d IH]; intros Hnd Hin; [contradiction|].
  cbn [dict_keys map fst] in Hnd. inversion Hnd as [|? ? Hk' Hnd']; subst.
  cbn [dict_get]. destruct Hin as [[= -> ->]|Hin].
  - now rewrite String.eqb_refl.
  - destruct (String.eqb_spec k' k) as [->|]; [|now apply IH].
    contradict Hk'. apply in_map_iff. now exists (k, v).
Qed.

Lemma filter_seen_drop (a : string) (acc u : list string) :
  existsb (String.eqb a) acc = true ->
  List.filter (fun t => negb (existsb (String.eqb t) acc))
    (List.filter (fun b => negb (String.eqb a b)) u)
  = List.filter (fun t => negb (existsb (String.eqb t) acc)) u.
Proof.
  intros Ha. induction u as [|x u IH]; [reflexivity|].
  cbn [List.filter].
  destruct (String.eqb_spec a x) as [->|Hax]; cbn [negb List.filter].
  - now rewrite Ha.
  - now rewrite IH.
Qed.

Lemma filter_seen_snoc (a : string) (acc u : list string) :
  List.filter (fun t => negb (existsb (String.eqb t) (acc ++ [a]))) u
  = List.filter (fun t => negb (existsb (String.eqb t) acc))
      (List.filter (fun b => negb (String.eqb a b)) u).
Proof.
  induction u as [|x u IH]; [reflexivity|].
  cbn [List.filter]. rewrite existsb_app. cbn [existsb].
  rewrite orb_false_r, (String.eqb_sym x a).
  destruct (String.eqb a x); cbn [negb List.filter].
  - now rewrite orb_true_r.
  - rewrite orb_false_r.
    destruct (existsb (String.eqb x) acc); cbn [negb]; now rewrite IH.
Qed.

Lemma fold_add_unique (l acc : list string) :
  fold_left (fun a t => add_column t a) l acc
  = acc ++ List.filter (fun t => negb (existsb (String.eqb t) acc)) (unique l).
Proof.
  revert acc. induction l as [|a l IH]; intros acc; cbn [fold_left unique List.filter].
  - now rewrite app_nil_r.
  - rewrite IH. unfold add_column.
    destruct (existsb (String.eqb a) acc) eqn:Ha; cbn [negb].
    + now rewrite filter_seen_drop.
    + rewrite <- app_assoc. cbn [app]. now rewrite filter_seen_snoc.
Qed.

Lemma fold_add_unique_nil (l : list string) :
  fold_left (fun a t => add_column t a) l [] = unique l.
Proof.
  rewrite fold_add_unique. cbn [app existsb negb].
  induction (unique l) as [|x u IH]; [reflexivity|]. cbn [List.filter]. now rewrite IH.
Qed.

Section FigureKeys.
Variable float_repr : Q -> string.

Lemma build_figures_spec df ps fmt (labels : dict string) (keys : list string) :
  forall figures figs,
    build_figures float_repr df ps fmt labels keys figures = ok figs ->
    exists titles,
      Forall2 (fun y t => dict_get y labels = Some t) keys titles /\
      dict_keys figs = fold_left (fun a t => add_column t a) titles (dict_keys figures) /\
      forall t f, In (t, f) figs ->
        In (t, f) figures \/
        exists y, In y keys /\ dict_get y labels = Some t /\
                  figure_of float_repr df ps fmt y t = ok f.
Proof.
  induction keys as [|y keys IH]; intros figures figs; cbn [build_figures].
  - intros [= <-]. exists []. repeat split; [constructor | now left].
  - destruct (dict_get y labels) as [title|] eqn:Hy; [|discriminate].
    cbn [rbind ok].
    destruct (figure_of float_repr df ps fmt y title) as [|fig] eqn:Hfig; [discriminate|].
    cbn [rbind]. intros H.
    apply IH in H as (titles & Ht & Hk & Hin).
    exists (title :: titles). split; [now constructor|]. split.
    + cbn [fold_left]. now rewrite <- (dict_keys_set title fig).
    + intros t f Htf. destruct (Hin t f Htf) as [H|(y' & Hy' & Hg & Hf)].
      * apply dict_set_In in H as [[= -> ->]|H]; [|now left].
        right. exists y. split; [now left | now split].
      * right. exists y'. split; [now right | now split].
Qed.

Lemma scenario_figures_inv labels fmt df figs :
  scenario_figures float_repr labels fmt df = ok figs ->
  exists ps,
    percentiles_of df = ok ps /\
    build_figures float_repr df ps fmt labels (dict_keys labels) [] = ok figs.
Proof.
  unfold scenario_figures.
  destruct (percentiles_of df) as [|ps]; [discriminate|]. cbn [rbind].
  destruct (y_cols_of df); [discriminate|]. cbn [rbind].
  intros H. now exists ps.
Qed.

(** Claim C7.  Within each figure the percentile subsets are visited in
    the order of the list [sorted(unique())] of the raw percentile texts:
    the distinct texts of the column, ascending in the order on strings
    (code points from the left), never compared as numbers; the traces of
    every figure follow that list. *)
Theorem percentiles_in_string_order (labels : dict string) (fmt : jval)
    (df : DataFrame) (figs : dict Figure) :
  scenario_figures float_repr labels fmt df = ok figs ->
  exists ps,
    percentiles_of df = ok ps /\
    StronglySorted str_le ps /\
    List.NoDup ps /\
    (forall p, In p ps <-> In (Some (CStr p)) (percentile_column df)) /\
    forall t f, In (t, f) figs ->
      exists y, Forall2 (fun p tr => trace_of float_repr df y p = ok tr) ps (fig_data f).
Proof.
  intros H. apply scenario_figures_inv in H as (ps & Hps & Hb).
  exists ps. split; [exact Hps|].
  destruct (percentiles_of_spec df ps Hps) as (Hs & Hnd & Hin).
  split; [now apply Sorted_str_le_strongly|]. split; [exact Hnd|]. split; [exact Hin|].
  intros t f Htf.
  apply build_figures_spec in Hb as (_ & _ & _ & Hfig).
  destruct (Hfig t f Htf) as [[]|(y & _ & _ & Hf)].
  exists y. unfold figure_of in Hf.
  destruct (rmap (trace_of float_repr df y) ps) as [|traces] eqn:Hr; [discriminate|].
  cbn [rbind] in Hf. injection Hf as <-. cbn [fig_data].
  now apply rmap_ok_Forall2.
Qed.
End FigureKeys.

(** ** When the figure builder succeeds *)

Lemma existsb_eqb_In (c : string) (l : list string) :
  existsb (String.eqb c) l = true <-> In c l.
Proof.
  rewrite existsb_exists. split.
  - intros (x & Hx & Heq). apply String.eqb_eq in Heq. now subst.
  - intros H. exists c. split; [exact H | apply String.eqb_refl].
Qed.

Lemma list_remove_ok (x : string) (l : list string) :
  In x l ->
  exists l', list_remove x l = ok l' /\ forall y, y <> x -> In y l -> In y l'.
Proof.
  induction l as [|a l IH]; intros Hx; [contradiction|]. cbn [list_remove].
  destruct (String.eqb_spec a x) as [->|Hax].
  - exists l. split; [reflexivity|]. intros y Hy [->|H]; [congruence | exact H].
  - destruct IH as (l' & Hl' & Hkeep); [destruct Hx; [congruence | assumption]|].
    rewrite Hl'. cbn [rbind ok]. exists (a :: l'). split; [reflexivity|].
    intros y Hy [->|H]; [now left | right; now apply Hkeep].
Qed.

Lemma y_cols_of_ok (df : DataFrame) :
  has_column "timestep" df = true -> has_column "percentile" df = true ->
  has_column "timestep_formatted" df = true -> has_column "bound" df = true ->
  exists y_cols, y_cols_of df = ok y_cols.
Proof.
  unfold has_column. rewrite !existsb_eqb_In. intros H1 H2 H3 H4. unfold y_cols_of.
  destruct (list_remove_ok "timestep" _ H1) as (l1 & -> & K1). cbn [rbind ok].
  destruct (list_remove_ok "percentile" l1) as (l2 & -> & K2);
    [apply K1; [discriminate | exact H2]|]. cbn [rbind ok].
  destruct (list_remove_ok "timestep_formatted" l2) as (l3 & -> & K3);
    [apply K2, K1; try discriminate; exact H3|]. cbn [rbind ok].
  destruct (list_remove_ok "bound" l3) as (l4 & -> & _);
    [apply K3, K2, K1; try discriminate; exact H4|].
  now exists l4.
Qed.

Lemma percentiles_of_ok (df : DataFrame) :
  has_column "percentile" df = true ->
  Forall (fun r : gmap string cell =>
            exists p q, r !! "percentile" = Some (CStr p) /\ py_float p = ok q) (rows df) ->
  exists ps, percentiles_of df = ok ps.
Proof.
  intros Hc Hrows. unfold percentiles_of, attribute. rewrite Hc. cbn [rbind ok].
  destruct (rmap_total as_text
              (map (fun r : gmap string cell => r !! "percentile") (rows df)))
    as [texts Ht].
  - intros v Hv. apply in_map_iff in Hv as (r & <- & Hr).
    rewrite List.Forall_forall in Hrows.
    destruct (Hrows r Hr) as (p & q & -> & _). now exists p.
  - rewrite Ht. cbn [rbind]. now eexists.
Qed.

Lemma dict_get_key {V} (k : string) (d : dict V) :
  In k (dict_keys d) -> exists v, dict_get k d = Some v.
Proof.
  induction d as [|[k' v'] d IH]; [contradiction|].
  cbn [dict_keys map fst dict_get In].
  destruct (String.eqb_spec k' k) as [->|Hne]; [now eexists|].
  intros [H|H]; [congruence | now apply IH].
Qed.

Section FigureSuccess.
Variable float_repr : Q -> string.

Lemma trace_of_ok (df : DataFrame) (y p : string) (q : Q) :
  has_column "bound" df = true -> has_column "timestep_formatted" df = true ->
  has_column y df = true -> py_float p = ok q ->
  exists tr, trace_of float_repr df y p = ok tr.
Proof.
  intros Hb Ht Hy Hp. unfold trace_of, column, attribute, has_column in *.
  cbn [columns filter_eq]. rewrite Hb, Ht, Hy. cbn [rbind ok].
  unfold trace_name. rewrite Hp. cbn [rbind ok].
  destruct (eq_text _ "lower"); [now eexists|].
  destruct (eq_text _ "upper"); now eexists.
Qed.

Lemma build_figures_ok df ps fmt (labels : dict string) (keys : list string) :
  (forall y, In y keys ->
     exists t f, dict_get y labels = Some t /\
                 figure_of float_repr df ps fmt y t = ok f) ->
  forall figures, exists figs,
    build_figures float_repr df ps fmt labels keys figures = ok figs.
Proof.
  induction keys as [|y keys IH]; intros H figures; cbn [build_figures].
  - now eexists.
  - destruct (H y) as (t & f & Ht & Hf); [now left|].
    rewrite Ht. cbn [rbind ok]. rewrite Hf. cbn [rbind ok].
    apply IH. intros; apply H; now right.
Qed.

Lemma scenario_figures_ok (labels : dict string) (fmt : jval) (df : DataFrame) :
  figure_ready labels df ->
  exists figs, scenario_figures float_repr labels fmt df = ok figs.
Proof.
  intros (H1 & H2 & H3 & H4 & Hrows & Hkeys).
  destruct (percentiles_of_ok df H2 Hrows) as [ps Hps].
  destruct (y_cols_of_ok df H1 H2 H3 H4) as [y_cols Hy].
  unfold scenario_figures. rewrite Hps, Hy. cbn [rbind].
  apply build_figures_ok. intros y Hin.
  destruct (dict_get_key y labels Hin) as [t Ht].
  destruct (rmap_total (trace_of float_repr df y) ps) as [traces Htr].
  - intros p Hp.
    apply (percentiles_of_spec df ps Hps) in Hp.
    unfold percentile_column in Hp. apply in_map_iff in Hp as (r & Hr & Hin').
    rewrite List.Forall_forall in Hrows.
    destruct (Hrows r Hin') as (p' & q & Hp' & Hq).
    assert (p' = p) as -> by congruence.
    rewrite List.Forall_forall in Hkeys.
    apply (trace_of_ok df y p q); [exact H4 | exact H3 | now apply Hkeys | exact Hq].
  - exists t. eexists. split; [exact Ht|].
    unfold figure_of. rewrite Htr. reflexivity.
Qed.
End FigureSuccess.

Lemma filter_all {A} (f : A -> bool) (l : list A) :
  (forall x, In x l -> f x = true) -> List.filter f l = l.
Proof.
  induction l as [|a l IH]; intros H; [reflexivity|]. cbn [List.filter].
  rewrite (H a) by now left. f_equal. apply IH. intros; apply H; now right.
Qed.

Lemma unique_NoDup_id (l : list string) : List.NoDup l -> unique l = l.
Proof.
  induction 1 as [|a l Ha _ IH]; [reflexivity|]. cbn [unique]. rewrite IH. f_equal.
  apply filter_all. intros x Hx.
  destruct (String.eqb_spec a x); [now subst | reflexivity].
Qed.

Section FigureClaims.
Variable float_repr : Q -> string.

Lemma scenario_figures_keys (labels : dict string) (fmt : jval) (df : DataFrame)
    (figs : dict Figure) :
  List.NoDup (dict_keys labels) ->
  scenario_figures float_repr labels fmt df = ok figs ->
  dict_keys figs = unique (map snd labels) /\
  forall t f, In (t, f) figs ->
    exists y ps, In (y, t) labels /\ percentiles_of df = ok ps /\
                 figure_of float_repr df ps fmt y t = ok f.
Proof.
  intros Hnd H. apply scenario_figures_inv in H as (ps & Hps & Hb).
  apply build_figures_spec in Hb as (titles & Ht & Hk & Hin).
  split.
  - rewrite Hk. cbn [dict_keys map]. rewrite fold_add_unique_nil. f_equal.
    apply (dict_get_titles labels labels Hnd); [|exact Ht].
    intros k v Hkv. now apply NoDup_dict_get.
  - intros t f Htf. destruct (Hin t f Htf) as [[]|(y & _ & Hy & Hf)].
    exists y, ps. split; [now apply dict_get_In | now split].
Qed.

(** Claim C8.  For a scenario table as the loader leaves it, the keys of
    the figure mapping are the display titles of the label mapping, in the
    order of the label file (a title given twice keeps its first place);
    every figure is built from a label key, so a column that is not a label
    key gives no figure.  This holds for every table, whatever columns it
    has beyond those the builder needs and in whatever order they come. *)
Theorem figure_keys_follow_labels (labels : dict string) (fmt : jval) (df : DataFrame) :
  List.NoDup (dict_keys labels) ->
  figure_ready labels df ->
  exists figs,
    scenario_figures float_repr labels fmt df = ok figs /\
    dict_keys figs = unique (map snd labels) /\
    (List.NoDup (map snd labels) -> dict_keys figs = map snd labels) /\
    forall t f, In (t, f) figs ->
      exists y ps, In (y, t) labels /\ percentiles_of df = ok ps /\
                   figure_of float_repr df ps fmt y t = ok f.
Proof.
  intros Hnd Hready.
  destruct (scenario_figures_ok float_repr labels fmt df Hready) as [figs Hfigs].
  destruct (scenario_figures_keys labels fmt df figs Hnd Hfigs) as [Hk Hin].
  exists figs. split; [exact Hfigs|]. split; [exact Hk|]. split; [|exact Hin].
  intros Hnd'. now rewrite Hk, unique_NoDup_id.
Qed.
End FigureClaims.

Lemma sample_table_ready : figure_ready sample_labels sample_table.
Proof.
  unfold figure_ready. repeat split; try reflexivity.
  - repeat constructor; eexists _, _; (split; [vm_compute; reflexivity|]);
      vm_compute; reflexivity.
  - repeat constructor.
Qed.

Lemma figure_keys_follow_labels_witness :
  exists figs,
    scenario_figures sample_repr sample_labels (JStr "%Y-%m-%d") sample_table = ok figs /\
    dict_keys figs = ["Hospitalized patients"].
Proof.
  destruct (figure_keys_follow_labels sample_repr sample_labels (JStr "%Y-%m-%d")
              sample_table) as (figs & Hfigs & Hk & _).
  - repeat constructor. intros [].
  - exact sample_table_ready.
  - exists figs. split; [exact Hfigs | exact Hk].
Defined.

Lemma percentiles_in_string_order_witness :
  exists ps,
    percentiles_of sample_table = ok ps /\ StronglySorted str_le ps /\ List.NoDup ps.
Proof.
  destruct (percentiles_in_string_order sample_repr sample_labels (JStr "%Y-%m-%d")
              sample_table
              [("Hospitalized patients",
                match figure_of sample_repr sample_table ["0.05"; "0.5"; "0.95"]
                        (JStr "%Y-%m-%d") "hospitalized" "Hospitalized patients" with
                | inr f => f
                | inl _ => mkFigure [] None
                end)])
    as (ps & Hps & Hs & Hnd & _).
  - vm_compute. reflexivity.
  - exists ps. repeat split; assumption.
Defined.

(** ** The file object of the dashboard renderer *)

Section RendererProps.
Variable to_html : Figure -> string.
Variable open_file : string -> result unit.
Variable write_file : nat -> string -> result unit.

Lemma write_ops (ops : list file_op) (data : string) :
  exists extra,
    (write write_file ops data).2 = ops ++ extra /\ only_writes extra.
Proof.
  unfold write. destruct (write_file (length ops) data); cbn [snd].
  - exists []. split; [now rewrite app_nil_r | constructor].
  - exists [OpWrite data]. split; [reflexivity|]. repeat constructor. now eexists.
Qed.

Lemma write_figures_ops (figs : dict Figure) :
  forall ops, exists extra,
    (write_figures to_html write_file ops figs).2 = ops ++ extra /\ only_writes extra.
Proof.
  induction figs as [|[k v] figs IH]; intros ops; cbn [write_figures].
  - exists []. split; [now rewrite app_nil_r | constructor].
  - destruct (inner_html_of to_html v) as [|inner].
    + exists []. split; [now rewrite app_nil_r | constructor].
    + destruct (write_ops ops inner) as (e1 & H1 & W1).
      destruct (write write_file ops inner) as [[|] ops1]; cbn [snd] in *; subst ops1.
      * now exists e1.
      * destruct (IH (ops ++ e1)) as (e2 & H2 & W2).
        exists (e1 ++ e2). split; [now rewrite H2, app_assoc|].
        now apply Forall_app.
Qed.

Lemma is_open_only_writes (ops : list file_op) (opened : bool) :
  only_writes ops -> is_open opened ops = opened.
Proof.
  induction 1 as [|op ops [data ->] _ IH]; [reflexivity | exact IH].
Qed.

(** Whatever the figures and whatever the outcome of each write, once
    [open] has succeeded the operations on the file are the [open]
    followed by writes only: the file object is never closed. *)
Lemma figures_to_html_only_writes (figs : dict Figure) (filename : string) :
  open_file filename = ok tt ->
  exists extra,
    (figures_to_html to_html open_file write_file figs filename).2
      = OpOpen filename "w" :: extra /\
    only_writes extra /\
    is_open false (figures_to_html to_html open_file write_file figs filename).2 = true.
Proof.
  intros Ho. unfold figures_to_html. rewrite Ho. unfold ok.
  assert (forall extra, only_writes extra ->
            is_open false (OpOpen filename "w" :: extra) = true) as Hopen.
  { intros extra W. cbn [is_open]. now apply is_open_only_writes. }
  destruct (write_ops [OpOpen filename "w"] page_head) as (e1 & H1 & W1).
  destruct (write write_file [OpOpen filename "w"] page_head) as [[|] ops1];
    cbn [snd] in *; subst ops1.
  - exists e1. cbn [app]. auto.
  - destruct (write_figures_ops figs ([OpOpen filename "w"] ++ e1)) as (e2 & H2 & W2).
    destruct (write_figures to_html write_file _ figs) as [[|] ops2];
      cbn [snd] in *; subst ops2.
    + exists (e1 ++ e2). rewrite <- app_assoc. cbn [app].
      assert (only_writes (e1 ++ e2)) by now apply Forall_app. auto.
    + destruct (write_ops (([OpOpen filename "w"] ++ e1) ++ e2) page_foot)
        as (e3 & H3 & W3).
      rewrite H3. exists (e1 ++ e2 ++ e3). rewrite <- !app_assoc. cbn [app].
      assert (only_writes (e1 ++ e2 ++ e3)).
    { apply Forall_app. split; [exact W1|]. apply Forall_app. now split. }
      auto.
Qed.
End RendererProps.

(** Claim C9 fails on the code: [figures_to_html] opens the file and never
    closes it.  On normal completion without figures the operations are
    the [open] and the two writes of the page shell, and when the first
    write fails they are the [open] alone; the file object is open at the
    end of both runs. *)
Theorem figures_to_html_leaves_file_open :
  figures_to_html (fun _ => "") (fun _ => ok tt) (fun _ _ => ok tt) [] "dashboard.html"
    = (ok tt, [OpOpen "dashboard.html" "w"; OpWrite page_head; OpWrite page_foot]) /\
  is_open false [OpOpen "dashboard.html" "w"; OpWrite page_head; OpWrite page_foot] = true /\
  figures_to_html (fun _ => "") (fun _ => ok tt) disk_full [] "dashboard.html"
    = (raise (OtherError "No space left on device"), [OpOpen "dashboard.html" "w"]) /\
  is_open false [OpOpen "dashboard.html" "w"] = true.
Proof. repeat split. Qed.

(** * Further properties of the code *)

(** ** Soundness of the matching engine *)

Lemma star_greedy_sound {A} (p : ascii -> bool) (s : list ascii) :
  forall pos (k : nat -> list ascii -> option A) a,
    star_greedy p pos s k = Some a ->
    exists w rest, s = w ++ rest /\ in_class p w /\ k (pos + length w) rest = Some a.
Proof.
  induction s as [|c s IH]; intros pos k a; cbn [star_greedy].
  - intros H. exists [], []. repeat split; [constructor|].
    cbn [length]. now rewrite Nat.add_0_r.
  - destruct (p c) eqn:Hc.
    + destruct (star_greedy p (S pos) s k) as [a'|] eqn:Hs.
      * intros [= ->]. apply IH in Hs as (w & rest & -> & Hw & Hk).
        exists (c :: w), rest. repeat split; [now constructor|].
        cbn [length]. now rewrite Nat.add_succ_r.
      * intros H. exists [], (c :: s). repeat split; [constructor|].
        cbn [length]. now rewrite Nat.add_0_r.
    + intros H. exists [], (c :: s). repeat split; [constructor|].
      cbn [length]. now rewrite Nat.add_0_r.
Qed.

Lemma star_lazy_sound {A} (p : ascii -> bool) (s : list ascii) :
  forall pos (k : nat -> list ascii -> option A) a,
    star_lazy p pos s k = Some a ->
    exists w rest, s = w ++ rest /\ in_class p w /\ k (pos + length w) rest = Some a.
Proof.
  induction s as [|c s IH]; intros pos k a; cbn [star_lazy].
  - destruct (k pos []) as [a'|] eqn:Hk; [|discriminate].
    intros [= ->]. exists [], []. repeat split; [constructor|].
    cbn [length]. now rewrite Nat.add_0_r.
  - destruct (k pos (c :: s)) as [a'|] eqn:Hk.
    + intros [= ->]. exists [], (c :: s). repeat split; [constructor|].
      cbn [length]. now rewrite Nat.add_0_r.
    + destruct (p c) eqn:Hc; [|discriminate].
      intros Hs. apply IH in Hs as (w & rest & -> & Hw & Hk').
      exists (c :: w), rest. repeat split; [now constructor|].
      cbn [length]. now rewrite Nat.add_succ_r.
Qed.

Lemma exec_sound {A} (r : re) :
  forall pos s caps (k : nat -> list ascii -> captures -> option A) a,
    exec r pos s caps k = Some a ->
    exists w rest caps',
      s = w ++ rest /\ lang r pos w rest /\ k (pos + length w) rest caps' = Some a.
Proof.
  induction r as [| |c|p|p|p|p|r IH|r1 IH1 r2 IH2|name r IH];
    intros pos s caps k a; cbn [exec lang].
  - destruct (Nat.eqb_spec pos 0) as [->|]; [|discriminate].
    intros H. exists [], s, caps. repeat split. exact H.
  - destruct s as [|c [|c' s]]; try discriminate.
    + intros H. exists [], [], caps. repeat split; [now left|].
      cbn [length]. now rewrite Nat.add_0_r.
    + destruct (Ascii.eqb_spec c newline) as [->|]; [|discriminate].
      intros H. exists [], [newline], caps. repeat split; [now right|].
      cbn [length]. now rewrite Nat.add_0_r.
  - destruct s as [|c' s]; [discriminate|].
    destruct (Ascii.eqb_spec c c') as [<-|]; [|discriminate].
    intros H. exists [c], s, caps. repeat split.
    cbn [length]. now rewrite Nat.add_1_r.
  - assert (k pos s caps = Some a ->
            exists w rest caps', s = w ++ rest /\
              (w = [] \/ exists c, w = [c] /\ p c = true) /\
              k (pos + length w) rest caps' = Some a) as Hskip.
    { intros H. exists [], s, caps. repeat split; [now left|].
      cbn [length]. now rewrite Nat.add_0_r. }
    destruct s as [|c s]; [exact Hskip|].
    destruct (p c) eqn:Hc; [|exact Hskip].
    destruct (k (S pos) s caps) as [a'|] eqn:Hk; [|exact Hskip].
    intros [= ->]. exists [c], s, caps. repeat split; [right; now exists c|].
    cbn [length]. now rewrite Nat.add_1_r.
  - intros H. apply star_greedy_sound in H as (w & rest & -> & Hw & Hk).
    now exists w, rest, caps.
  - destruct s as [|c s]; [discriminate|].
    destruct (p c) eqn:Hc; [|discriminate].
    intros H. apply star_greedy_sound in H as (w & rest & -> & Hw & Hk).
    exists (c :: w), rest, caps. repeat split; [discriminate | now constructor|].
    cbn [length]. now rewrite Nat.add_succ_r.
  - destruct s as [|c s]; [discriminate|].
    destruct (p c) eqn:Hc; [|discriminate].
    intros H. apply star_lazy_sound in H as (w & rest & -> & Hw & Hk).
    exists (c :: w), rest, caps. repeat split; [discriminate | now constructor|].
    cbn [length]. now rewrite Nat.add_succ_r.
  - destruct (exec r pos s caps k) as [a'|] eqn:Hr.
    + intros [= ->]. apply IH in Hr as (w & rest & caps' & -> & Hw & Hk).
      exists w, rest, caps'. repeat split; [now right | exact Hk].
    + intros H. exists [], s, caps. repeat split; [now left|].
      cbn [length]. now rewrite Nat.add_0_r.
  - intros H. apply IH1 in H as (w1 & rest1 & caps1 & -> & Hw1 & H).
    apply IH2 in H as (w2 & rest & caps2 & -> & Hw2 & H).
    exists (w1 ++ w2), rest, caps2. rewrite <- app_assoc. repeat split.
    + exists w1, w2. now repeat split.
    + now rewrite length_app, Nat.add_assoc.
  - intros H. apply IH in H as (w & rest & caps' & -> & Hw & H).
    exists w, rest. eexists. repeat split; [exact Hw | exact H].
Qed.

(** ** The texts the duration parser accepts *)

Ltac no_segment_tail :=
  match goal with
  | |- no_segment _ [] => exists [], []; repeat split; [constructor | now left]
  | |- no_segment _ [newline] =>
      exists [], [newline]; repeat split; [constructor|];
      right; exists newline, []; repeat split;
      let H := fresh in intros H; vm_compute in H; discriminate
  | |- no_segment _ (?num ++ ?v :: ?rest) =>
      exists num, (v :: rest); repeat split; [assumption|];
      right; exists v, rest; repeat split; discriminate
  end.

Ltac step_segment_tail :=
  cbv beta; rewrite exec_seq;
  first
    [ apply segment_present; [reflexivity | assumption | assumption |]
    | rewrite segment_absent; [| reflexivity | no_segment_tail] ].

Lemma time_regex_match_shape (d h m s : option string) (tail : string) :
  pattern_operand d -> pattern_operand h -> pattern_operand m -> pattern_operand s ->
  tail = "" \/ tail = String newline "" ->
  re_match time_regex (duration_text d h m s +:+ tail)
  = Some (capture_of "seconds" s ++ capture_of "minutes" m ++
          capture_of "hours" h ++ capture_of "days" d).
Proof.
  intros Hd Hh Hm Hs Htail.
  unfold re_match, time_regex, duration_text.
  rewrite !chars_app, exec_seq.
  change (exec Bol 0 ?s ?c ?k) with (k 0 s c). cbv beta.
  destruct Htail as [-> | ->];
  destruct d as [d|], h as [h|], m as [m|], s as [s|];
    repeat match goal with
      | H : pattern_operand (Some _) |- _ => destruct H as [? ?]
      | H : pattern_operand None |- _ => clear H
      end;
    unfold segment; rewrite ?chars_app;
    cbn [chars list_ascii_of_string app]; rewrite <- ?app_assoc;
    cbn [app]; rewrite ?app_nil_r;
    repeat step_segment_tail; reflexivity.
Qed.

Lemma operand_not_empty (n : string) : chars n <> [] -> String.eqb n "" = false.
Proof. destruct n; [intros H; now contradict H | reflexivity]. Qed.

Lemma parse_time_of_shape (d h m s : option string) (tail : string) :
  pattern_operand d -> pattern_operand h -> pattern_operand m -> pattern_operand s ->
  tail = "" \/ tail = String newline "" ->
  parse_time (duration_text d h m s +:+ tail)
  = rbind (rmap (fun kv => let* v := py_float kv.2 in ok (kv.1, v))
                (present_operands d h m s))
          pd_Timedelta.
Proof.
  intros Hd Hh Hm Hs Htail. unfold parse_time.
  rewrite time_regex_match_shape by assumption.
  destruct d as [d|], h as [h|], m as [m|], s as [s|];
    repeat match goal with
      | H : pattern_operand (Some _) |- _ => destruct H as [H _]
      | H : pattern_operand None |- _ => clear H
      end;
    cbn [capture_of app groupdict time_names map group String.eqb Ascii.eqb Bool.eqb
         truthy_groups fst snd present_operands];
    rewrite ?str_chars;
    repeat match goal with
      | H : chars ?n <> [] |- _ =>
          rewrite (operand_not_empty n H); cbn [truthy_groups]; clear H
      end;
    reflexivity.
Qed.

Lemma app_empty_string (s : string) : s +:+ "" = s.
Proof.
  induction s as [|c s IH]; [reflexivity|].
  change (String c (s +:+ "") = String c s). now rewrite IH.
Qed.

Lemma chars_inj (s t : string) : chars s = chars t -> s = t.
Proof. intros H. rewrite <- (str_chars s), <- (str_chars t). now rewrite H. Qed.

Lemma assertion_iff_no_match (s : string) :
  parse_time s = raise (AssertionError (assert_message s)) <-> re_match time_regex s = None.
Proof.
  unfold parse_time.
  destruct (re_match time_regex s) as [parts|]; [|tauto].
  split; [|discriminate].
  destruct (rmap _ _) as [e|params] eqn:Hr; simpl.
  - apply rmap_float_error in Hr as [msg ->]. discriminate.
  - unfold pd_Timedelta. destruct params; [discriminate|].
    cbv zeta. destruct (_ <=? _)%Z; discriminate.
Qed.

(** one optional segment, read back from what the pattern consumed *)
Lemma segment_lang (name : string) (u : ascii) (pos : nat) (w rest : list ascii) :
  lang (time_segment name u) pos w rest ->
  exists o, pattern_operand o /\ w = chars (segment u o).
Proof.
  cbn [time_segment lang].
  intros [-> | (w1 & w2 & -> & (Hne & Hcls) & ->)].
  - exists None. split; [exact I | reflexivity].
  - exists (Some (str w1)). cbn [pattern_operand segment].
    rewrite chars_app, chars_str. repeat split; assumption.
Qed.

Lemma match_is_shaped (s : string) (caps : captures) :
  re_match time_regex s = Some caps -> duration_shaped s.
Proof.
  unfold re_match. intros H.
  apply exec_sound in H as (w & rest & caps' & Hs & Hlang & _).
  unfold time_regex in Hlang. cbn [lang] in Hlang.
  destruct Hlang as (w0 & w' & -> & [-> _] & Hlang).
  destruct Hlang as (w1 & w1' & -> & H1 & Hlang).
  destruct Hlang as (w2 & w2' & -> & H2 & Hlang).
  destruct Hlang as (w3 & w3' & -> & H3 & Hlang).
  destruct Hlang as (w4 & w4' & -> & H4 & [-> Hrest]).
  apply (segment_lang "days" "d") in H1 as (d & Hd & ->).
  apply (segment_lang "hours" "h") in H2 as (h & Hh & ->).
  apply (segment_lang "minutes" "m") in H3 as (m & Hm & ->).
  apply (segment_lang "seconds" "s") in H4 as (sec & Hsec & ->).
  exists d, h, m, sec. repeat split; try assumption.
  destruct Hrest as [-> | ->]; [left | right]; apply chars_inj; rewrite Hs;
    unfold duration_text; rewrite ?chars_app; cbn [app chars list_ascii_of_string];
    rewrite ?app_nil_r, <- ?app_assoc; reflexivity.
Qed.

(** X1.  The assertion of [parse_time] fires exactly on the texts that are
    not of the shape of the pattern: segments [<run>d], [<run>h], [<run>m],
    [<run>s], each optional, in that order, every run a non-empty text of
    digits and dots, with at most one newline after them.  Any other text,
    segments out of order included, is rejected with the message. *)
Theorem parse_time_asserts_iff_not_shaped (time_str : string) :
  parse_time time_str = raise (AssertionError (assert_message time_str))
  <-> ~ duration_shaped time_str.
Proof.
  rewrite assertion_iff_no_match. split.
  - intros Hnone (d & h & m & s & Hd & Hh & Hm & Hs & Hshape).
    assert (exists tail, (tail = "" \/ tail = String newline "") /\
                         time_str = duration_text d h m s +:+ tail) as (tail & Ht & ->).
    { destruct Hshape as [-> | ->].
      - exists "". split; [now left | now rewrite app_empty_string].
      - eexists. split; [now right | reflexivity]. }
    rewrite time_regex_match_shape in Hnone by assumption. discriminate.
  - intros Hns. destruct (re_match time_regex time_str) as [caps|] eqn:Hm; [|reflexivity].
    contradict Hns. now apply match_is_shaped in Hm.
Qed.

(** X2.  One newline after a text of the pattern's shape changes nothing:
    the anchor [$] also matches just before a final newline, so the text
    is parsed to the same result, or fails in the same way. *)
Theorem parse_time_ignores_final_newline (d h m s : option string) :
  pattern_operand d -> pattern_operand h -> pattern_operand m -> pattern_operand s ->
  parse_time (duration_text d h m s +:+ String newline "")
  = parse_time (duration_text d h m s).
Proof.
  intros Hd Hh Hm Hs.
  rewrite parse_time_of_shape by (try assumption; now right).
  rewrite <- (app_empty_string (duration_text d h m s)) at 1.
  rewrite parse_time_of_shape by (try assumption; now left).
  reflexivity.
Qed.

Lemma parse_time_ignores_final_newline_witness :
  parse_time ("2h13m" +:+ String newline "") = parse_time "2h13m".
Proof.
  apply (parse_time_ignores_final_newline None (Some "2") (Some "13") None);
    try exact I; split; try discriminate; repeat constructor.
Defined.

Lemma rmap_some_error {A B} (f : A -> result B) (l : list A) (x : A) (e : exn) :
  In x l -> f x = raise e -> exists e', rmap f l = raise e'.
Proof.
  induction l as [|a l IH]; intros Hin Hx; [contradiction|]. cbn [rmap].
  destruct (f a) as [e0|y] eqn:Ha; [now exists e0|]. cbn [rbind ok].
  destruct Hin as [->|Hin]; [unfold raise in Hx; congruence|].
  destruct (IH Hin Hx) as [e' ->]. now exists e'.
Qed.

(** X3.  The pattern admits runs that [float] refuses (two dots, no digit).
    A text of the pattern's shape with such an operand passes the assertion
    and makes [parse_time] raise [ValueError] instead. *)
Theorem parse_time_rejects_non_numbers (d h m s : option string) (n : string) (e : exn) :
  pattern_operand d -> pattern_operand h -> pattern_operand m -> pattern_operand s ->
  In (Some n) [d; h; m; s] ->
  py_float n = raise e ->
  exists msg, parse_time (duration_text d h m s) = raise (ValueError msg).
Proof.
  intros Hd Hh Hm Hs Hin Hn.
  rewrite <- (app_empty_string (duration_text d h m s)).
  rewrite parse_time_of_shape by (try assumption; now left).
  destruct (rmap_some_error
              (fun kv : string * string => let* v := py_float kv.2 in ok (kv.1, v))
              (present_operands d h m s)
              (match (if decide (d = Some n) then 0 else
                      if decide (h = Some n) then 1 else
                      if decide (m = Some n) then 2 else 3) with
               | 0 => ("days", n) | 1 => ("hours", n)
               | 2 => ("minutes", n) | _ => ("seconds", n)
               end) e) as [e' He'].
  - unfold present_operands.
    destruct (decide (d = Some n)) as [->|Hd'];
      [rewrite !in_app_iff; left; now left|].
    destruct (decide (h = Some n)) as [->|Hh'];
      [rewrite !in_app_iff; right; left; now left|].
    destruct (decide (m = Some n)) as [->|Hm'];
      [rewrite !in_app_iff; right; right; left; now left|].
    cbn [In] in Hin. destruct Hin as [?|[?|[?|[->|[]]]]]; try congruence.
    rewrite !in_app_iff. right; right; right. now left.
  - repeat destruct (decide _); cbn [fst snd]; now rewrite Hn.
  - rewrite He'. cbn [rbind raise].
    apply rmap_float_error in He' as [msg ->]. now exists msg.
Qed.

Lemma parse_time_rejects_non_numbers_witness :
  exists msg, parse_time "1.2.3h5m" = raise (ValueError msg).
Proof.
  apply (parse_time_rejects_non_numbers None (Some "1.2.3") (Some "5") None "1.2.3"
           (ValueError "could not convert string to float: '1.2.3'"));
    try exact I; try (split; [discriminate | repeat constructor]).
  - right. now left.
  - reflexivity.
Defined.

(** ** The percentile taken from a file name *)

Lemma findall_from_lang (r : re) (fuel : nat) :
  forall pos s t,
    In t (findall_from r fuel pos s) ->
    exists pos' pre w rest, s = pre ++ w ++ rest /\ lang r pos' w rest /\ t = str w.
Proof.
  induction fuel as [|fuel IH]; intros pos s t; cbn [findall_from]; [contradiction|].
  assert (forall c s1, s = c :: s1 -> In t (findall_from r fuel (S pos) s1) ->
            exists pos' pre w rest, s = pre ++ w ++ rest /\ lang r pos' w rest /\ t = str w)
    as Hnext.
  { intros c s1 -> Hin. apply IH in Hin as (pos' & pre & w & rest & -> & Hl & ->).
    now exists pos', (c :: pre), w, rest. }
  destruct (exec r pos s [] (fun pos' s' _ => Some (pos', s'))) as [[pos' s']|] eqn:He.
  - apply exec_sound in He as (w & rest & caps' & Hs & Hl & [= <- <-]).
    replace (firstn (pos + length w - pos) s) with w.
    2:{ rewrite Hs. replace (pos + length w - pos) with (length w) by lia.
        now rewrite firstn_app, firstn_all, Nat.sub_diag, firstn_0, app_nil_r. }
    assert (t = str w ->
            exists pos' pre w0 rest0, s = pre ++ w0 ++ rest0 /\
              lang r pos' w0 rest0 /\ t = str w0) as Hhere.
    { intros ->. now exists pos, [], w, rest. }
    destruct (Nat.eqb_spec (pos + length w) pos) as [Heq|Hne].
    + destruct s as [|c s1].
      * intros [Ht|[]]. now apply Hhere.
      * intros [Ht|Hin]; [now apply Hhere|]. now apply (Hnext c s1).
    + intros [Ht|Hin]; [now apply Hhere|].
      apply IH in Hin as (pos' & pre & w0 & rest0 & Hr & Hl0 & ->).
      exists pos', (w ++ pre), w0, rest0. rewrite Hs, Hr, <- app_assoc. now repeat split.
  - destruct s as [|c s1]; [contradiction|]. intros Hin. now apply (Hnext c s1).
Qed.

Lemma is_dot_not_digit (c : ascii) : is_dot c = true -> is_digit c = false.
Proof. unfold is_dot. intros H. apply Ascii.eqb_eq in H. now subst. Qed.

Lemma scan_digits_app (w : list ascii) :
  in_class is_digit w ->
  forall t mant seen_dot scale ndigits,
  exists mant' scale',
    scan_decimal (w ++ t) mant seen_dot scale ndigits
    = scan_decimal t mant' seen_dot scale' (ndigits + length w).
Proof.
  induction 1 as [|c w Hc _ IH]; intros t mant seen scale nd.
  - exists mant, scale. cbn [app length]. now rewrite Nat.add_0_r.
  - cbn [app scan_decimal length]. rewrite Hc.
    destruct (IH t (10 * mant + digit_value c)%Z seen
                (if seen then (10 * scale)%positive else scale) (S nd))
      as (mant' & scale' & ->).
    exists mant', scale'. now rewrite Nat.add_succ_r.
Qed.

Lemma percentile_text_is_number (pos : nat) (w rest : list ascii) :
  lang percentile_regex pos w rest -> exists q, py_float (str w) = ok q.
Proof.
  unfold percentile_regex. cbn [lang].
  intros (w1 & w' & -> & H1 & w2 & w3 & -> & H2 & Hne & H3).
  unfold py_float. rewrite chars_str.
  destruct (scan_digits_app w1 H1 (w2 ++ w3) 0%Z false 1%positive 0)
    as (m1 & s1 & ->).
  assert (forall seen m s n, exists q, scan_decimal w3 m seen s n = Some q) as Hlast.
  { intros seen m s n.
    destruct (scan_digits_app w3 H3 [] m seen s n) as (m3 & s3 & Hs).
    rewrite app_nil_r in Hs. rewrite Hs. cbn [scan_decimal].
    destruct w3 as [|c w3]; [congruence|]. cbn [length].
    rewrite Nat.add_succ_r. cbn [Nat.eqb]. now eexists. }
  destruct H2 as [-> | (c & -> & Hc)]; cbn [app scan_decimal].
  - destruct (Hlast false m1 s1 (0 + length w1)) as [q ->]. now exists q.
  - rewrite (is_dot_not_digit c Hc), Hc.
    destruct (Hlast true m1 s1 (0 + length w1)) as [q ->]. now exists q.
Qed.

Lemma findall_percentile_number (fname p : string) (ps : list string) :
  findall percentile_regex fname = p :: ps -> exists q, py_float p = ok q.
Proof.
  unfold findall. intros H.
  assert (In p (findall_from percentile_regex (S (String.length fname)) 0 (chars fname)))
    as Hin by (rewrite H; now left).
  apply findall_from_lang in Hin as (pos & pre & w & rest & _ & Hl & ->).
  now apply percentile_text_is_number in Hl.
Qed.

Lemma findall_percentile_digit (fname p : string) (ps : list string) :
  findall percentile_regex fname = p :: ps ->
  exists c, In c (chars fname) /\ is_digit c = true.
Proof.
  unfold findall. intros H.
  assert (In p (findall_from percentile_regex (S (String.length fname)) 0 (chars fname)))
    as Hin by (rewrite H; now left).
  apply findall_from_lang in Hin as (pos & pre & w & rest & Hs & Hl & _).
  unfold percentile_regex in Hl. cbn [lang] in Hl.
  destruct Hl as (w1 & w' & -> & _ & w2 & w3 & -> & _ & Hne & H3).
  destruct H3 as [|c w3 Hc _]; [congruence|].
  exists c. split; [|exact Hc]. rewrite Hs, !in_app_iff.
  right; left; right; right. now left.
Qed.

(** X4.  A summary file name without any digit makes the loader raise
    [IndexError] when it looks for the percentile, before any file is
    read: whatever the file system holds, the result is the same. *)
Theorem file_name_without_digit read_csv output_path scen first dt
    (file_type fname : string) :
  Forall (fun c => is_digit c = false) (chars fname) ->
  load_summary read_csv output_path scen first dt (file_type, JStr fname)
  = raise (IndexError "list index out of range").
Proof.
  intros Hno. unfold load_summary. cbn [snd as_str rbind ok].
  destruct (findall percentile_regex fname) as [|p ps] eqn:Hp; [reflexivity|].
  apply findall_percentile_digit in Hp as (c & Hin & Hc).
  rewrite List.Forall_forall in Hno. rewrite (Hno c Hin) in Hc. discriminate.
Qed.

Lemma file_name_without_digit_witness :
  load_summary sample_files "out" "out_0/" (inject_Z 0) (inject_Z 86400)
    ("summary_mid", JStr "summary_median.csv")
  = raise (IndexError "list index out of range").
Proof.
  apply (file_name_without_digit sample_files "out" "out_0/" (inject_Z 0)
           (inject_Z 86400) "summary_mid" "summary_median.csv").
  repeat constructor.
Defined.

(** ** Failures before the loops of the loader *)

Lemma dict_del_without (k : string) (ks : list string) (cfg : config) :
  dict_del k (without_keys ks cfg) = without_keys (ks ++ [k]) cfg.
Proof.
  unfold dict_del, without_keys.
  induction cfg as [|[k0 v] cfg IH]; [reflexivity|].
  cbn [List.filter fst]. rewrite existsb_app. cbn [existsb]. rewrite orb_false_r.
  destruct (existsb (String.eqb k0) ks); cbn [negb orb List.filter fst]; [exact IH|].
  destruct (String.eqb k0 k); cbn [negb]; [exact IH | now rewrite IH].
Qed.

Lemma without_no_keys (cfg : config) : without_keys [] cfg = cfg.
Proof. unfold without_keys. now apply filter_all. Qed.

Lemma dict_del_first (k : string) (cfg : config) : dict_del k cfg = without_keys [k] cfg.
Proof. rewrite <- (without_no_keys cfg) at 1. apply dict_del_without. Qed.

Section LoaderFailures.
Variable read_csv : string -> result DataFrame.
Variable strptime : string -> string -> result Q.
Variable int_of_string : string -> result Z.
Variable config_json : result config.

(** X5.  When one of the five keys is missing, [load_output_data] raises
    [KeyError] for the first missing one in the order output_path,
    num_scenarios, time_step_format, time_delta, first_time_step, and the
    mapping it was given has by then lost exactly the keys before that one:
    a failed call does not restore what it popped. *)
Theorem load_output_data_missing_key (cfg : config) (before after : list string)
    (k : string) :
  popped_keys = before ++ k :: after ->
  (forall k', In k' before -> dict_get k' cfg <> None) ->
  (In "time_delta" before ->
   exists s dt, dict_get "time_delta" cfg = Some (JStr s) /\ parse_time s = ok dt) ->
  dict_get k cfg = None ->
  load_output_data read_csv strptime int_of_string config_json (Some cfg)
  = (raise (KeyError k), without_keys before cfg).
Proof.
  intros Hsplit Hpresent Htd Hmissing.
  cbn [load_output_data]. unfold load_body, bindM, pop, lift, items, retM, raise, ok.
  unfold popped_keys in Hsplit.
  destruct before as [|b1 before]; cbn [app] in Hsplit.
  { injection Hsplit as <- _. rewrite Hmissing. now rewrite without_no_keys. }
  injection Hsplit as <- Hsplit.
  destruct (dict_get "output_path" cfg) as [v1|] eqn:H1;
    [|exfalso; apply (Hpresent "output_path"); [now left | exact H1]].
  destruct before as [|b2 before]; cbn [app] in Hsplit.
  { injection Hsplit as <- _. rewrite dict_get_del_ne, Hmissing by discriminate.
    now rewrite dict_del_first. }
  injection Hsplit as <- Hsplit.
  rewrite dict_get_del_ne by discriminate.
  destruct (dict_get "num_scenarios" cfg) as [v2|] eqn:H2;
    [|exfalso; apply (Hpresent "num_scenarios"); [right; now left | exact H2]].
  destruct before as [|b3 before]; cbn [app] in Hsplit.
  { injection Hsplit as <- _. rewrite !dict_get_del_ne, Hmissing by discriminate.
    now rewrite (dict_del_first "output_path"), dict_del_without. }
  injection Hsplit as <- Hsplit.
  rewrite !dict_get_del_ne by discriminate.
  destruct (dict_get "time_step_format" cfg) as [v3|] eqn:H3;
    [|exfalso; apply (Hpresent "time_step_format"); [right; right; now left | exact H3]].
  destruct before as [|b4 before]; cbn [app] in Hsplit.
  { injection Hsplit as <- _. rewrite !dict_get_del_ne, Hmissing by discriminate.
    now rewrite (dict_del_first "output_path"), !dict_del_without. }
  injection Hsplit as <- Hsplit.
  rewrite !dict_get_del_ne by discriminate.
  destruct Htd as (s & dt & H4 & Hs); [do 3 right; now left|].
  rewrite H4. cbv beta iota delta [as_str rbind ok]. rewrite Hs.
  destruct before as [|b5 before]; cbn [app] in Hsplit.
  { injection Hsplit as <- _. rewrite !dict_get_del_ne, Hmissing by discriminate.
    now rewrite (dict_del_first "output_path"), !dict_del_without. }
  injection Hsplit as _ Hsplit. now destruct before.
Qed.

(** X6.  A duration text that [parse_time] refuses makes the loader raise
    the parser's exception, with the four keys up to time_delta popped and
    first_time_step still in the mapping. *)
Theorem load_output_data_bad_time_delta (cfg : config) (v1 v2 v3 : jval)
    (s : string) (e : exn) :
  dict_get "output_path" cfg = Some v1 ->
  dict_get "num_scenarios" cfg = Some v2 ->
  dict_get "time_step_format" cfg = Some v3 ->
  dict_get "time_delta" cfg = Some (JStr s) ->
  parse_time s = raise e ->
  load_output_data read_csv strptime int_of_string config_json (Some cfg)
  = (raise e,
     without_keys ["output_path"; "num_scenarios"; "time_step_format"; "time_delta"] cfg).
Proof.
  intros H1 H2 H3 H4 Hs.
  cbn [load_output_data]. unfold load_body, bindM, pop, lift, items, retM, raise, ok in *.
  rewrite H1.
  rewrite dict_get_del_ne, H2 by discriminate.
  rewrite !dict_get_del_ne, H3 by discriminate.
  rewrite !dict_get_del_ne, H4 by discriminate.
  cbv beta iota delta [as_str rbind ok]. rewrite Hs.
  now rewrite (dict_del_first "output_path"), !dict_del_without.
Qed.

(** X7.  With [num_scenarios] zero or negative the loader returns no table
    and reads no file: the result is the same whatever the file system
    holds, also for a configuration without summary entries. *)
Theorem load_output_data_no_scenario (cfg : config) (output_path num_scenarios fmt : jval)
    (time_delta first : Q) (n : Z) :
  preamble_ok strptime int_of_string cfg output_path num_scenarios fmt time_delta first n ->
  (n <= 0)%Z ->
  load_output_data read_csv strptime int_of_string config_json (Some cfg)
  = (ok ([], fmt), without_popped cfg).
Proof.
  intros Hpre Hn. cbn [load_output_data].
  rewrite (load_body_run _ _ _ _ _ _ _ _ _ _ Hpre).
  replace (Z.to_nat n) with 0 by lia. reflexivity.
Qed.

(** X8.  With at least one scenario and no [summary_*] entry in the
    configuration, the loader fails in [pd.concat] on the empty list of
    tables: [ValueError], after the five keys have been popped. *)
Theorem load_output_data_no_summary (cfg : config) (output_path : string)
    (num_scenarios fmt : jval) (time_delta first : Q) (n : Z) :
  preamble_ok strptime int_of_string cfg (JStr output_path) num_scenarios fmt
    time_delta first n ->
  (0 < n)%Z ->
  summary_files_of cfg = [] ->
  load_output_data read_csv strptime int_of_string config_json (Some cfg)
  = (raise (ValueError "No objects to concatenate"), without_popped cfg).
Proof.
  intros Hpre Hn Hnone. cbn [load_output_data].
  rewrite (load_body_run _ _ _ _ _ _ _ _ _ _ Hpre). rewrite Hnone.
  replace (Z.to_nat n) with (S (Z.to_nat n - 1)) by lia. reflexivity.
Qed.
End LoaderFailures.

(** ** What the loader stores in a table *)

Lemma timestep_formatted_of_ok df first dt (x : gmap string cell) (v : option cell) :
  timestep_formatted_of df first dt x = ok v ->
  has_column "timestep" df = true /\
  v = match x !! "timestep" with
      | Some (CNum t) => Some (CTime (fill_timestep t first dt))
      | _ => None
      end.
Proof.
  unfold timestep_formatted_of.
  destruct (has_column "timestep" df); [|discriminate].
  destruct (x !! "timestep") as [[t|s|t]|]; try discriminate; now intros [= <-].
Qed.

Lemma annotate_enriched file_type p first dt raw df :
  annotate file_type p first dt raw = ok df ->
  Forall2 (enriched p (bound_of file_type) first dt) (rows raw) (rows df) /\
  has_column "timestep" raw = true /\
  columns df = add_column "bound"
                 (add_column "timestep_formatted" (add_column "percentile" (columns raw))).
Proof.
  intros H. pose proof (annotate_rows _ _ _ _ _ _ H) as Hrows.
  unfold annotate in H.
  set (df_temp := assign_scalar "percentile" (CStr p) raw) in *.
  destruct (df_apply (timestep_formatted_of df_temp first dt) df_temp)
    as [|series] eqn:Hs; [discriminate|].
  cbn [rbind] in H. injection H as <-.
  unfold df_apply in Hs.
  destruct (rows df_temp) as [|x0 xs] eqn:Hx; [discriminate|]. rewrite <- Hx in Hs.
  apply rmap_ok_Forall2 in Hs.
  assert (has_column "timestep" raw = true) as Hcol.
  { rewrite Hx in Hs. inversion Hs as [|? v ? ? Hv _]; subst.
    apply timestep_formatted_of_ok in Hv as [Hc _].
    unfold has_column in *. subst df_temp. cbn [columns assign_scalar] in Hc.
    rewrite has_column_add in Hc. now rewrite orb_false_r in Hc. }
  split; [|split; [exact Hcol | reflexivity]].
  clear Hx x0 xs Hcol.
  subst df_temp. cbn [rows assign_scalar assign_series] in *.
  remember (timestep_formatted_of _ first dt) as f eqn:Hf.
  assert (forall x v, f x = ok v ->
            v = match x !! "timestep" with
                | Some (CNum t) => Some (CTime (fill_timestep t first dt))
                | _ => None
                end) as Hspec.
  { intros x v Hv. subst f. now apply timestep_formatted_of_ok in Hv as [_ ->]. }
  clear Hf. revert series Hs Hrows.
  induction (rows raw) as [|r0 l IH]; intros series Hs Hrows; cbn [map] in *.
  - inversion Hs; subst. constructor.
  - inversion Hs as [|? v ? series' Hv Hl]; subst. cbn [zip_with map fst snd] in *.
    inversion Hrows as [|? ? ? ? (Hb & Hp & Hk) Hrest]; subst.
    constructor; [|now apply IH].
    split; [exact Hp|]. split; [exact Hb|]. split; [|exact Hk].
    apply Hspec in Hv. rewrite lookup_insert_ne in Hv by discriminate.
    rewrite lookup_insert_ne by discriminate. rewrite <- Hv.
    destruct v; cbn [set_cell]; [apply lookup_insert_eq | apply lookup_delete_eq].
Qed.

Section LoaderTables.
Variable read_csv : string -> result DataFrame.
Variable strptime : string -> string -> result Q.
Variable int_of_string : string -> result Z.
Variable config_json : result config.

(** X9.  The table loaded for a summary entry has one row per row of the
    file read, in the same order; each carries the first number found in
    the file name as [percentile], the bound of the entry's key, and as
    [timestep_formatted] the instant [first + timestep * time_delta] (a
    missing timestep stays missing); every other column is as read. *)
Theorem load_summary_rows output_path scen first dt (file_type : string)
    (file_name : jval) (df : DataFrame) :
  load_summary read_csv output_path scen first dt (file_type, file_name) = ok df ->
  exists fname p ps raw,
    file_name = JStr fname /\
    findall percentile_regex fname = p :: ps /\
    read_with_fallback read_csv scen output_path fname = ok raw /\
    Forall2 (enriched p (bound_of file_type) first dt) (rows raw) (rows df).
Proof.
  intros H. apply load_summary_inv in H as (fname & p & ps & raw & Hn & Hp & Hr & Ha).
  exists fname, p, ps, raw. repeat split; try assumption.
  now apply annotate_enriched in Ha as [Ha _].
Qed.

(** X10.  An absolute file name is read as it stands for every scenario:
    [os.path.join] drops the directory in front of it, so the read at the
    scenario's path and the fallback read go to the same file and the
    fallback cannot recover anything. *)
Theorem absolute_file_name_skips_directories scen output_path fname :
  startswith fname "/" = true ->
  read_with_fallback read_csv scen output_path fname = read_csv fname.
Proof.
  intros Habs. unfold read_with_fallback, path_join. rewrite Habs.
  now destruct (read_csv fname) as [[]|].
Qed.

Lemma rmap_ext {A B} (f g : A -> result B) (l : list A) :
  (forall x, In x l -> f x = g x) -> rmap f l = rmap g l.
Proof.
  induction l as [|a l IH]; intros H; [reflexivity|]. cbn [rmap].
  rewrite (H a) by now left. rewrite IH; [reflexivity|]. intros; apply H; now right.
Qed.

(** X11.  Two scenarios that have no file of their own for any summary
    entry are loaded the same: both get the tables of the shared files at
    the base path, or fail in the same way. *)
Theorem scenarios_without_files_agree (output_path : string)
    (summary_files : list (string * jval)) (first dt : Q) (i j : nat) :
  (forall e, In e summary_files ->
     only_shared read_csv output_path i e /\ only_shared read_csv output_path j e) ->
  load_scenario read_csv (JStr output_path) summary_files first dt i
  = load_scenario read_csv (JStr output_path) summary_files first dt j.
Proof.
  intros H. unfold load_scenario. cbn [as_str rbind ok]. f_equal.
  apply rmap_ext. intros e He. destruct (H e He) as [Hi Hj].
  unfold load_summary. destruct e.2 as [fname|] eqn:Hn; [|reflexivity].
  cbn [as_str rbind ok].
  destruct (findall percentile_regex fname) as [|p ps]; [reflexivity|].
  cbn [rbind ok].
  destruct (Hi fname Hn) as [qi Hqi]. destruct (Hj fname Hn) as [qj Hqj].
  unfold read_with_fallback. now rewrite Hqi, Hqj.
Qed.

(** X12.  A CSV file that has rows but no [timestep] column makes the
    loader raise [AttributeError] when it computes the time stamps. *)
Theorem load_summary_without_timestep output_path scen first dt (file_type fname p : string)
    (ps : list string) (raw : DataFrame) :
  findall percentile_regex fname = p :: ps ->
  read_with_fallback read_csv scen output_path fname = ok raw ->
  has_column "timestep" raw = false ->
  rows raw <> [] ->
  load_summary read_csv output_path scen first dt (file_type, JStr fname)
  = raise (AttributeError "timestep").
Proof.
  intros Hp Hr Hc Hne. unfold load_summary. cbn [snd as_str rbind ok].
  rewrite Hp. cbn [rbind ok]. rewrite Hr. cbn [rbind ok].
  rewrite df_apply_rows by (cbn [rows assign_scalar]; now destruct (rows raw)).
  cbn [rows assign_scalar]. destruct (rows raw) as [|r0 l]; [congruence|].
  cbn [map rmap]. unfold timestep_formatted_of at 1, has_column.
  cbn [columns assign_scalar]. rewrite has_column_add.
  unfold has_column in Hc. rewrite Hc. reflexivity.
Qed.
End LoaderTables.

(** ** From the loader to the figure builder *)

Lemma add_column_In (c c' : string) (cols : list string) :
  In c (add_column c' cols) <-> In c cols \/ c = c'.
Proof.
  rewrite <- !existsb_eqb_In, has_column_add, orb_true_iff, String.eqb_eq. tauto.
Qed.

Lemma fold_add_column_In (c : string) (cols acc : list string) :
  In c (fold_left (fun a c' => add_column c' a) cols acc) <-> In c acc \/ In c cols.
Proof.
  revert acc. induction cols as [|c' cols IH]; intros acc; cbn [fold_left In].
  - tauto.
  - rewrite IH, add_column_In. intuition congruence.
Qed.

Lemma union_columns_In (c : string) (dfs : list DataFrame) :
  In c (union_columns dfs) <-> exists df, In df dfs /\ In c (columns df).
Proof.
  unfold union_columns.
  assert (forall acc,
            In c (fold_left (fun acc df =>
                               fold_left (fun a c' => add_column c' a) (columns df) acc)
                            dfs acc)
            <-> In c acc \/ exists df, In df dfs /\ In c (columns df)) as H.
  { induction dfs as [|df dfs IH]; intros acc; cbn [fold_left].
    - split; [now left | intros [H|(df & [] & _)]; exact H].
    - rewrite IH, fold_add_column_In. split.
      + intros [[H|H]|(df' & Hin & H)]; [now left | right | right].
        * exists df. split; [now left | exact H].
        * exists df'. split; [now right | exact H].
      + intros [H|(df' & [<-|Hin] & H)]; [left; now left | left; now right | right].
        now exists df'. }
  rewrite H. cbn [In]. tauto.
Qed.

Lemma load_summary_loader_table read_csv output_path scen first dt e df :
  load_summary read_csv output_path scen first dt e = ok df -> loader_table df.
Proof.
  intros H. apply load_summary_inv in H as (fname & p & ps & raw & _ & Hp & _ & Ha).
  apply findall_percentile_number in Hp as [q Hq].
  apply annotate_enriched in Ha as (Hrows & Hts & Hcols).
  unfold loader_table, has_column. rewrite Hcols, !existsb_eqb_In, !add_column_In.
  unfold has_column in Hts. rewrite existsb_eqb_In in Hts.
  repeat split; try tauto.
  clear -Hrows Hq. induction Hrows as [|r0 r l0 l (Hp & _) _ IH]; constructor.
  - now exists p, q.
  - exact IH.
Qed.

Lemma load_scenario_loader_table read_csv output_path summary_files first dt i table :
  load_scenario read_csv output_path summary_files first dt i = ok table ->
  loader_table table.
Proof.
  unfold load_scenario.
  destruct (as_str _ output_path) as [|out]; [discriminate|]. cbn [rbind].
  destruct (rmap _ summary_files) as [|per_file] eqn:Hr; [discriminate|]. cbn [rbind].
  unfold pd_concat. destruct per_file as [|df0 per_file]; [discriminate|].
  intros [= <-].
  apply rmap_ok_Forall2 in Hr.
  assert (Forall loader_table (df0 :: per_file)) as Hall.
  { clear -Hr. induction Hr as [|e df l k He _ IH]; constructor; [|exact IH].
    now apply load_summary_loader_table in He. }
  assert (forall c, (forall df, In df (df0 :: per_file) -> has_column c df = true) ->
                    has_column c (mkDataFrame (union_columns (df0 :: per_file))
                                    (concat (map rows (df0 :: per_file)))) = true) as Hcol.
  { intros c Hc. unfold has_column. cbn [columns].
    rewrite existsb_eqb_In, union_columns_In. exists df0. split; [now left|].
    specialize (Hc df0 (or_introl eq_refl)). unfold has_column in Hc.
    now rewrite existsb_eqb_In in Hc. }
  rewrite List.Forall_forall in Hall.
  unfold loader_table.
  repeat split; try (apply Hcol; intros df Hdf; now apply Hall).
  cbn [rows]. apply List.Forall_forall. intros r Hr'.
  change (In r (concat (map rows (df0 :: per_file)))) in Hr'.
  apply in_concat in Hr' as (rs & Hrs & Hin).
  apply in_map_iff in Hrs as (df & <- & Hdf).
  destruct (Hall df Hdf) as (_ & _ & _ & _ & Hrows).
  rewrite List.Forall_forall in Hrows. now apply Hrows.
Qed.

Section Pipeline.
Variable read_csv : string -> result DataFrame.
Variable strptime : string -> string -> result Q.
Variable int_of_string : string -> result Z.
Variable config_json : result config.
Variable float_repr : Q -> string.

(** X13.  Every table [load_output_data] returns has the four columns
    [timestep], [percentile], [timestep_formatted] and [bound], and in
    every row the percentile is a text that [float] accepts. *)
Theorem load_output_data_tables_ready (cfg cfg' : config) (tables : list DataFrame)
    (fmt : jval) :
  load_output_data read_csv strptime int_of_string config_json (Some cfg)
    = (ok (tables, fmt), cfg') ->
  Forall loader_table tables.
Proof.
  cbn [load_output_data]. intros H.
  apply load_body_inv in H as (_ & out & nj & dt & t0 & n & _ & Hr).
  cbn [fst] in Hr. apply rmap_ok_Forall2 in Hr.
  induction Hr as [|i t l k Hi _ IH]; constructor; [|exact IH].
  now apply load_scenario_loader_table in Hi.
Qed.

(** X14.  The figure builder cannot fail on what the loader returns unless
    a label key is not a column: when every label key names a column of
    every table, [make_figure] returns one mapping of figures per table. *)
Theorem make_figure_after_load (cfg cfg' : config) (tables : list DataFrame)
    (fmt : jval) (labels : dict string) :
  load_output_data read_csv strptime int_of_string config_json (Some cfg)
    = (ok (tables, fmt), cfg') ->
  (forall t y, In t tables -> In y (dict_keys labels) -> has_column y t = true) ->
  exists figures,
    make_figure float_repr tables labels fmt = ok figures /\
    length figures = length tables.
Proof.
  intros Hload Hkeys. cbn [load_output_data] in Hload.
  apply load_body_inv in Hload as (_ & out & nj & dt & t0 & n & _ & Hr).
  cbn [fst] in Hr. apply rmap_ok_Forall2 in Hr.
  unfold make_figure.
  destruct (rmap_total (scenario_figures float_repr labels fmt) tables) as [figs Hf].
  - intros t Ht. apply scenario_figures_ok.
    assert (loader_table t) as (H1 & H2 & H3 & H4 & H5).
    { clear -Hr Ht. induction Hr as [|i t' l k Hi _ IH]; [contradiction|].
      destruct Ht as [<-|Ht]; [now apply load_scenario_loader_table in Hi | now apply IH]. }
    unfold figure_ready. repeat split; try assumption.
    apply List.Forall_forall. intros y Hy. now apply Hkeys.
  - exists figs. split; [exact Hf | now apply rmap_length in Hf].
Qed.
End Pipeline.

(** ** Edge behaviour of the figure builder *)

Lemma percentiles_of_empty (df : DataFrame) (ps : list string) :
  percentiles_of df = ok ps -> (ps = [] <-> rows df = []).
Proof.
  intros H. pose proof (percentiles_of_spec df ps H) as (_ & _ & Hin).
  unfold percentiles_of, attribute in H.
  destruct (has_column "percentile" df); [|discriminate]. cbn [rbind ok] in H.
  destruct (rmap as_text _) as [|texts] eqn:Ht; [discriminate|].
  apply as_text_column in Ht. unfold percentile_column in Hin.
  split.
  - intros ->. destruct (rows df) as [|r0 l]; [reflexivity|]. exfalso.
    destruct texts as [|s texts]; [discriminate|].
    apply (Hin s). rewrite Ht. now left.
  - intros Hr. rewrite Hr in Hin. destruct ps as [|p ps]; [reflexivity|].
    exfalso. apply (Hin p). now left.
Qed.

Section FigureEdges.
Variable float_repr : Q -> string.

Lemma figure_of_shape df ps fmt y t f :
  figure_of float_repr df ps fmt y t = ok f ->
  length (fig_data f) = length ps /\
  fig_layout f = match ps with [] => None | _ => Some (layout_of t fmt) end.
Proof.
  unfold figure_of.
  destruct (rmap (trace_of float_repr df y) ps) as [|traces] eqn:Hr; [discriminate|].
  cbn [rbind]. intros [= <-]. cbn [fig_data fig_layout].
  split; [now apply rmap_length in Hr | reflexivity].
Qed.

(** X15.  The layout is set inside the loop over the percentiles.  For a
    table without rows every label still gets a figure, but one without
    traces and without layout (no title, no axis format); for a table with
    rows every figure has one trace per distinct percentile and the layout
    with the label's title and the time step format. *)
Theorem figures_of_empty_table (labels : dict string) (fmt : jval) (df : DataFrame)
    (figs : dict Figure) (t : string) (f : Figure) :
  scenario_figures float_repr labels fmt df = ok figs ->
  In (t, f) figs ->
  (rows df = [] -> fig_data f = [] /\ fig_layout f = None) /\
  (rows df <> [] ->
   fig_data f <> [] /\ fig_layout f = Some (layout_of t fmt) /\
   title (layout_of t fmt) = t /\ xaxis_tickformat (layout_of t fmt) = fmt).
Proof.
  intros H Hin. apply scenario_figures_inv in H as (ps & Hps & Hb).
  apply build_figures_spec in Hb as (_ & _ & _ & Hfig).
  destruct (Hfig t f Hin) as [[]|(y & _ & _ & Hf)].
  apply figure_of_shape in Hf as [Hlen Hlay].
  pose proof (percentiles_of_empty df ps Hps) as Hempty.
  split.
  - intros Hr. apply Hempty in Hr. subst ps. split; [|exact Hlay].
    now destruct (fig_data f).
  - intros Hr. assert (ps <> []) as Hne by (intros Hp; now apply Hempty in Hp).
    destruct ps as [|p ps]; [congruence|].
    repeat split; [|exact Hlay]. intros Hd. now rewrite Hd in Hlen.
Qed.

Lemma figure_of_ok df ps fmt y t :
  loader_table df -> percentiles_of df = ok ps -> has_column y df = true ->
  exists f, figure_of float_repr df ps fmt y t = ok f.
Proof.
  intros (H1 & H2 & H3 & H4 & Hrows) Hps Hy.
  destruct (rmap_total (trace_of float_repr df y) ps) as [traces Htr].
  - intros p Hp. apply (percentiles_of_spec df ps Hps) in Hp.
    unfold percentile_column in Hp. apply in_map_iff in Hp as (r & Hr & Hin').
    rewrite List.Forall_forall in Hrows.
    destruct (Hrows r Hin') as (p' & q & Hp' & Hq).
    assert (p' = p) as -> by congruence.
    now apply (trace_of_ok float_repr df y p q).
  - unfold figure_of. rewrite Htr. now eexists.
Qed.

Lemma build_figures_first_error df ps fmt (labels : dict string)
    (before after : list string) (y t : string) (e : exn) :
  (forall b, In b before ->
     exists tb f, dict_get b labels = Some tb /\
                  figure_of float_repr df ps fmt b tb = ok f) ->
  dict_get y labels = Some t ->
  figure_of float_repr df ps fmt y t = raise e ->
  forall figures,
    build_figures float_repr df ps fmt labels (before ++ y :: after) figures = raise e.
Proof.
  induction before as [|b before IH]; intros Hb Hy Hf figures; cbn [app build_figures].
  - rewrite Hy. cbn [rbind ok]. now rewrite Hf.
  - destruct (Hb b) as (tb & f & Htb & Hfb); [now left|].
    rewrite Htb. cbn [rbind ok]. rewrite Hfb. cbn [rbind ok].
    apply IH; [intros; apply Hb; now right | exact Hy | exact Hf].
Qed.

(** X16.  On a table with rows, the first label key (in label order) that
    is not a column of the table makes the builder raise [KeyError] for
    that key; no figure is returned, also not for the labels before it. *)
Theorem label_without_column (labels : dict string) (fmt : jval) (df : DataFrame)
    (before after : list string) (y : string) :
  loader_table df ->
  rows df <> [] ->
  dict_keys labels = before ++ y :: after ->
  (forall b, In b before -> has_column b df = true) ->
  has_column y df = false ->
  scenario_figures float_repr labels fmt df = raise (KeyError y).
Proof.
  intros Hdf Hrows Hkeys Hbefore Hy.
  pose proof Hdf as (H1 & H2 & H3 & H4 & Hnum).
  destruct (percentiles_of_ok df H2 Hnum) as [ps Hps].
  destruct (y_cols_of_ok df H1 H2 H3 H4) as [y_cols Hyc].
  unfold scenario_figures. rewrite Hps, Hyc. cbn [rbind]. rewrite Hkeys.
  assert (In y (dict_keys labels)) as Hin by (rewrite Hkeys, in_app_iff; right; now left).
  destruct (dict_get_key y labels Hin) as [t Ht].
  apply (build_figures_first_error df ps fmt labels before after y t).
  - intros b Hb.
    assert (In b (dict_keys labels)) as Hinb by (rewrite Hkeys, in_app_iff; now left).
    destruct (dict_get_key b labels Hinb) as [tb Htb].
    destruct (figure_of_ok df ps fmt b tb Hdf Hps (Hbefore b Hb)) as [f Hf].
    now exists tb, f.
  - exact Ht.
  - assert (ps <> []) as Hne.
    { intros Hp. now apply (percentiles_of_empty df ps Hps) in Hp. }
    destruct ps as [|p ps]; [congruence|].
    unfold figure_of. cbn [rmap]. unfold trace_of at 1.
    unfold column, attribute, has_column in *.
    cbn [columns filter_eq]. now rewrite H4, H3, Hy.
Qed.

Lemma list_remove_missing (x : string) (l : list string) :
  ~ In x l -> list_remove x l = raise (ValueError "list.remove(x): x not in list").
Proof.
  induction l as [|a l IH]; intros Hx; [reflexivity|]. cbn [list_remove].
  destruct (String.eqb_spec a x) as [->|]; [contradict Hx; now left|].
  rewrite IH; [reflexivity|]. intros H. apply Hx. now right.
Qed.

Lemma list_remove_subset (x y : string) (l l' : list string) :
  list_remove x l = ok l' -> In y l' -> In y l.
Proof.
  revert l'. induction l as [|a l IH]; intros l'; cbn [list_remove]; [discriminate|].
  destruct (String.eqb a x).
  - intros [= <-] H. now right.
  - destruct (list_remove x l) as [|r] eqn:Hr; [discriminate|]. cbn [rbind].
    intros [= <-] [<-|H]; [now left | right; now apply (IH r)].
Qed.

Lemma list_remove_chain_missing (x y : string) (l : list string) :
  ~ In y l ->
  (exists l', list_remove x l = ok l' /\ ~ In y l') \/
  list_remove x l = raise (ValueError "list.remove(x): x not in list").
Proof.
  intros Hy. destruct (list_remove x l) as [e|l'] eqn:Hr.
  - right. destruct (in_dec string_dec x l) as [Hin|Hnin].
    + destruct (list_remove_ok x l Hin) as (l'' & Hl'' & _).
      unfold ok in Hl''. congruence.
    + rewrite list_remove_missing in Hr by exact Hnin. exact (eq_sym Hr).
  - left. exists l'. split; [reflexivity|]. intros H. apply Hy.
    now apply (list_remove_subset x y l l').
Qed.

(** X17.  The list [y_cols] is computed and never used, yet its four
    [remove] calls must succeed: a table that lacks [timestep],
    [timestep_formatted] or [bound] makes the builder raise [ValueError]
    before any figure is made, whatever the labels, even none. *)
Theorem missing_column_fails_in_remove (labels : dict string) (fmt : jval)
    (df : DataFrame) (ps : list string) (c : string) :
  percentiles_of df = ok ps ->
  In c ["timestep"; "timestep_formatted"; "bound"] ->
  has_column c df = false ->
  scenario_figures float_repr labels fmt df
  = raise (ValueError "list.remove(x): x not in list").
Proof.
  intros Hps Hc Hmissing. unfold scenario_figures. rewrite Hps. cbn [rbind].
  assert (~ In c (columns df)) as Hnin.
  { unfold has_column in Hmissing. rewrite <- existsb_eqb_In. now rewrite Hmissing. }
  assert (y_cols_of df = raise (ValueError "list.remove(x): x not in list")) as ->;
    [|reflexivity].
  unfold y_cols_of.
  cbn [In] in Hc. destruct Hc as [<-|[<-|[<-|[]]]].
  - now rewrite list_remove_missing.
  - destruct (list_remove_chain_missing "timestep" "timestep_formatted" _ Hnin)
      as [(l1 & -> & H1)| ->]; [|reflexivity]. cbn [rbind ok].
    destruct (list_remove_chain_missing "percentile" "timestep_formatted" _ H1)
      as [(l2 & -> & H2)| ->]; [|reflexivity]. cbn [rbind ok].
    now rewrite list_remove_missing.
  - destruct (list_remove_chain_missing "timestep" "bound" _ Hnin)
      as [(l1 & -> & H1)| ->]; [|reflexivity]. cbn [rbind ok].
    destruct (list_remove_chain_missing "percentile" "bound" _ H1)
      as [(l2 & -> & H2)| ->]; [|reflexivity]. cbn [rbind ok].
    destruct (list_remove_chain_missing "timestep_formatted" "bound" _ H2)
      as [(l3 & -> & H3)| ->]; [|reflexivity]. cbn [rbind ok].
    now rewrite list_remove_missing.
Qed.
End FigureEdges.

(** ** The style of the traces *)

Section TraceStyle.
Variable float_repr : Q -> string.

(** X18.  The test [df_filtered['bound'].all() == 'lower'] compares a
    [bool] with a text, so it checks nothing about the bound, whether the
    rows of a percentile agree on it or not: every trace of every figure
    that [make_figure] returns has the style of the [else] branch, filled
    to the previous trace in the band colour, with no mode and no line
    width set. *)
Theorem every_trace_drawn_as_middle (dfs : list DataFrame) (labels : dict string)
    (fmt : jval) (figures : list (dict Figure)) (figs : dict Figure) (t : string)
    (f : Figure) (tr : Scatter) :
  make_figure float_repr dfs labels fmt = ok figures ->
  In figs figures ->
  In (t, f) figs ->
  In tr (fig_data f) ->
  middle_style tr.
Proof.
  intros Hmake Hfigs Hf Htr. unfold make_figure in Hmake.
  apply rmap_ok_Forall2 in Hmake.
  assert (exists df, scenario_figures float_repr labels fmt df = ok figs) as [df Hdf].
  { clear -Hmake Hfigs. induction Hmake as [|df fs dfs' figures' Hd _ IH]; [contradiction|].
    destruct Hfigs as [<-|Hin]; [now exists df | now apply IH]. }
  apply scenario_figures_inv in Hdf as (ps & _ & Hb).
  apply build_figures_spec in Hb as (_ & _ & _ & Hfig).
  destruct (Hfig t f Hf) as [[]|(y & _ & _ & Hfy)].
  unfold figure_of in Hfy.
  destruct (rmap (trace_of float_repr df y) ps) as [|traces] eqn:Hr; [discriminate|].
  cbn [rbind] in Hfy. injection Hfy as <-. cbn [fig_data] in Htr.
  apply rmap_ok_Forall2 in Hr.
  assert (exists p, trace_of float_repr df y p = ok tr) as [p Hp].
  { clear -Hr Htr. induction Hr as [|p tr' ps' traces' Hp _ IH]; [contradiction|].
    destruct Htr as [<-|Hin]; [now exists p | now apply IH]. }
  apply trace_of_style in Hp as (xs & ys & name & ->). repeat split.
Qed.
End TraceStyle.

(** ** What the dashboard renderer writes *)

Lemma split_without_separator (sep l piece : list ascii) :
  contains_chars sep l = false ->
  split_chars sep l 0 piece = [rev piece ++ l].
Proof.
  revert piece. induction l as [|c l IH]; intros piece; cbn [contains_chars split_chars].
  - intros _. now rewrite app_nil_r.
  - intros H. apply orb_false_iff in H as [Hs Hc]. rewrite Hs.
    rewrite IH by exact Hc. cbn [rev]. now rewrite <- app_assoc.
Qed.

Section RendererContent.
Variable to_html : Figure -> string.
Variable open_file : string -> result unit.
Variable write_file : nat -> string -> result unit.
Hypothesis writes_succeed : forall n data, write_file n data = ok tt.

Lemma write_succeeds (ops : list file_op) (data : string) :
  write write_file ops data = (inr tt, ops ++ [OpWrite data]).
Proof. unfold write. now rewrite writes_succeed. Qed.

Lemma write_figures_all (figs : dict Figure) (inners : list string) :
  Forall2 (fun kv inner => inner_html_of to_html kv.2 = ok inner) figs inners ->
  forall ops,
    write_figures to_html write_file ops figs = (ok tt, ops ++ map OpWrite inners).
Proof.
  induction 1 as [|[k v] inner figs inners Hv _ IH]; intros ops; cbn [write_figures map].
  - now rewrite app_nil_r.
  - cbn [snd] in Hv. unfold ok in Hv. rewrite Hv, write_succeeds.
    rewrite IH, <- app_assoc. reflexivity.
Qed.

(** X19.  When the file opens, every write succeeds and every figure's
    HTML has its body, the renderer writes, in this order and nothing
    else: the page head, the body of each figure in the order of the
    mapping, and the page foot. *)
Theorem figures_to_html_page (figs : dict Figure) (inners : list string)
    (filename : string) :
  open_file filename = ok tt ->
  Forall2 (fun kv inner => inner_html_of to_html kv.2 = ok inner) figs inners ->
  figures_to_html to_html open_file write_file figs filename
  = (ok tt,
     OpOpen filename "w" :: OpWrite page_head :: map OpWrite inners ++ [OpWrite page_foot]).
Proof.
  intros Ho Hin. unfold figures_to_html. unfold ok in Ho. rewrite Ho.
  rewrite write_succeeds. cbn [app].
  rewrite (write_figures_all figs inners Hin). unfold ok at 1.
  rewrite write_succeeds. unfold ok. now rewrite <- app_assoc.
Qed.

(** X20.  A figure whose HTML does not contain [<body>] makes the renderer
    raise [IndexError] at that figure.  By then the page head and the
    bodies of the figures before it are written; the page foot is not, so
    the file is left truncated. *)
Theorem figure_without_body (before after : dict Figure) (k : string) (v : Figure)
    (inners : list string) (filename : string) :
  open_file filename = ok tt ->
  Forall2 (fun kv inner => inner_html_of to_html kv.2 = ok inner) before inners ->
  str_in "<body>" (to_html v) = false ->
  figures_to_html to_html open_file write_file (before ++ (k, v) :: after) filename
  = (raise (IndexError "list index out of range"),
     OpOpen filename "w" :: OpWrite page_head :: map OpWrite inners).
Proof.
  intros Ho Hin Hbody. unfold figures_to_html. unfold ok in Ho. rewrite Ho.
  rewrite write_succeeds. cbn [app].
  assert (forall ops,
            write_figures to_html write_file ops (before ++ (k, v) :: after)
            = (raise (IndexError "list index out of range"), ops ++ map OpWrite inners))
    as ->; [|reflexivity].
  clear Ho. induction Hin as [|[k' v'] inner figs' inners' Hv _ IH]; intros ops;
    cbn [app write_figures map].
  - unfold inner_html_of, split. unfold str_in in Hbody.
    rewrite split_without_separator by exact Hbody.
    cbn [map index nth_error rbind]. now rewrite app_nil_r.
  - cbn [snd] in Hv. unfold ok in Hv. rewrite Hv, write_succeeds.
    rewrite IH, <- app_assoc. reflexivity.
Qed.
End RendererContent.

Section RendererHandle.
Variable to_html : Figure -> string.
Variable open_file : string -> result unit.
Variable write_file : nat -> string -> result unit.

(** X21.  Whatever the figures, and whatever [open] and each write do,
    the renderer performs no operation on the file other than one [open],
    first, and writes after it: it never closes the file, and if [open]
    fails it does nothing at all. *)
Theorem figures_to_html_operations (figs : dict Figure) (filename : string) :
  let ops := (figures_to_html to_html open_file write_file figs filename).2 in
  ops = [] \/
  exists writes, ops = OpOpen filename "w" :: writes /\ only_writes writes /\
                 is_open false ops = true.
Proof.
  cbv zeta. destruct (open_file filename) as [e|[]] eqn:Ho.
  - left. unfold figures_to_html. now rewrite Ho.
  - right. destruct (figures_to_html_only_writes to_html open_file write_file
                       figs filename Ho) as (extra & H1 & H2 & H3).
    now exists extra.
Qed.
End RendererHandle.

(** ** The percentile is the first number of the file name *)

Lemma string_length_chars (s : string) : String.length s = length (chars s).
Proof. induction s as [|c s IH]; [reflexivity|]. cbn. now rewrite IH. Qed.

Lemma star_greedy_full {A} (p : ascii -> bool) (run tail : list ascii)
    (K : nat -> list ascii -> option A) (a : A) :
  in_class p run ->
  match tail with [] => True | c :: _ => p c = false end ->
  forall pos,
    K (pos + length run) tail = Some a ->
    star_greedy p pos (run ++ tail) K = Some a.
Proof.
  intros Hrun Htail. induction Hrun as [|c run Hc _ IH]; intros pos HK.
  - cbn [app length] in *. rewrite Nat.add_0_r in HK.
    destruct tail as [|c tail]; cbn [star_greedy]; [exact HK|]. now rewrite Htail.
  - cbn [app star_greedy length] in *. rewrite Hc.
    rewrite IH; [reflexivity|]. now rewrite Nat.add_succ_r in HK.
Qed.

Lemma star_greedy_give_back {A} (p : ascii -> bool) (run tail : list ascii) (c : ascii)
    (K : nat -> list ascii -> option A) (a : A) :
  in_class p run -> p c = true ->
  match tail with [] => True | c' :: _ => p c' = false end ->
  forall pos,
    K (S (pos + length run)) tail = None ->
    K (pos + length run) (c :: tail) = Some a ->
    star_greedy p pos (run ++ c :: tail) K = Some a.
Proof.
  intros Hrun Hc Htail. induction Hrun as [|c0 run Hc0 _ IH]; intros pos Hfull Hback.
  - cbn [app length] in *. rewrite Nat.add_0_r in *.
    cbn [star_greedy]. rewrite Hc.
    assert (star_greedy p (S pos) tail K = None) as ->; [|exact Hback].
    destruct tail as [|c' tail]; cbn [star_greedy]; [exact Hfull|]. now rewrite Htail.
  - cbn [app star_greedy length] in *. rewrite Hc0.
    rewrite Nat.add_succ_r in Hfull, Hback. now rewrite IH.
Qed.

Lemma exec_star {A} p pos s caps (k : nat -> list ascii -> captures -> option A) :
  exec (Star p) pos s caps k = star_greedy p pos s (fun pos' s' => k pos' s' caps).
Proof. reflexivity. Qed.

Lemma exec_optc {A} p pos s caps (k : nat -> list ascii -> captures -> option A) :
  exec (OptC p) pos s caps k =
  match s with
  | c :: s' =>
      if p c then
        match k (S pos) s' caps with
        | Some a => Some a
        | None => k pos s caps
        end
      else k pos s caps
  | [] => k pos s caps
  end.
Proof. reflexivity. Qed.

Lemma exec_plus {A} p pos s caps (k : nat -> list ascii -> captures -> option A) :
  exec (Plus p) pos s caps k =
  match s with
  | c :: s' =>
      if p c then star_greedy p (S pos) s' (fun pos' s' => k pos' s' caps) else None
  | [] => None
  end.
Proof. reflexivity. Qed.

Lemma plus_digits_none {A} (s : list ascii) (pos : nat) (caps : captures)
    (k : nat -> list ascii -> captures -> option A) :
  no_digit_start s -> exec (Plus is_digit) pos s caps k = None.
Proof.
  rewrite exec_plus. destruct s as [|c s]; cbn [no_digit_start]; [reflexivity|].
  now intros ->.
Qed.

(** what follows [\d*] in the pattern, at a text without a number ahead *)
Lemma percentile_tail_none {A} (s : list ascii) (pos : nat) (caps : captures)
    (k : nat -> list ascii -> captures -> option A) :
  no_number_start s ->
  exec (Seq (OptC is_dot) (Plus is_digit)) pos s caps k = None.
Proof.
  intros Hs. rewrite exec_seq, exec_optc.
  destruct s as [|c s]; [now apply plus_digits_none|].
  destruct Hs as [Hc Hdot].
  assert (exec (Plus is_digit) pos (c :: s) caps k = None) as Hhere
    by now apply plus_digits_none.
  destruct (is_dot c) eqn:Hd; [|exact Hhere].
  rewrite (plus_digits_none s) by now apply Hdot. exact Hhere.
Qed.

Lemma percentile_no_match {A} (s : list ascii) (pos : nat) (caps : captures)
    (k : nat -> list ascii -> captures -> option A) :
  no_number_start s -> exec percentile_regex pos s caps k = None.
Proof.
  intros Hs. unfold percentile_regex. rewrite exec_seq, exec_star.
  destruct s as [|c s]; cbn [star_greedy]; [now apply percentile_tail_none|].
  destruct Hs as [Hc Hdot]. rewrite Hc. apply percentile_tail_none. now split.
Qed.

Lemma plus_digits_run {A} (run rest : list ascii) (c : ascii) (pos : nat)
    (caps : captures) (k : nat -> list ascii -> captures -> option A) (a : A) :
  is_digit c = true -> in_class is_digit run -> no_digit_start rest ->
  k (S (pos + length run)) rest caps = Some a ->
  exec (Plus is_digit) pos (c :: run ++ rest) caps k = Some a.
Proof.
  intros Hc Hrun Hrest Hk. rewrite exec_plus, Hc.
  apply star_greedy_full; [exact Hrun | now destruct rest | exact Hk].
Qed.

Lemma percentile_match (int_part frac_part rest : list ascii) (pos : nat) :
  decimal_number int_part frac_part ->
  no_digit_start rest ->
  (frac_part = [] -> no_number_start rest) ->
  exec percentile_regex pos (number_text int_part frac_part ++ rest) []
       (fun pos' s' _ => Some (pos', s'))
  = Some (pos + length (number_text int_part frac_part), rest).
Proof.
  intros (Hne & Hint & Hfrac) Hrest Hrest'.
  unfold percentile_regex. rewrite exec_seq, exec_star.
  destruct frac_part as [|f frac]; cbn [number_text].
  - specialize (Hrest' eq_refl).
    destruct (exists_last Hne) as (run & c & ->).
    apply Forall_app in Hint as [Hrun Hc]. inversion Hc as [|? ? Hc' _]; subst.
    rewrite <- app_assoc. cbn [app].
    rewrite length_app. cbn [length].
    apply star_greedy_give_back; [exact Hrun | exact Hc' | exact Hrest | |].
    + now apply percentile_tail_none.
    + rewrite exec_seq, exec_optc.
      assert (is_dot c = false) as ->.
      { destruct (is_dot c) eqn:Hd; [|reflexivity].
        apply is_dot_not_digit in Hd. congruence. }
      change (c :: rest) with (c :: [] ++ rest).
      apply plus_digits_run; [exact Hc' | constructor | exact Hrest |].
      cbn [length]. f_equal. f_equal. lia.
  - inversion Hfrac as [|? ? Hf Hfrac']; subst.
    rewrite <- app_assoc. cbn [app].
    apply star_greedy_full; [exact Hint | reflexivity |].
    rewrite exec_seq, exec_optc. change (is_dot ".") with true. cbv iota.
    rewrite (plus_digits_run frac rest f (S (pos + length int_part)) []
               (fun pos' s' _ => Some (pos', s'))
               (pos + length (int_part ++ "."%char :: f :: frac), rest));
      [reflexivity | exact Hf | exact Hfrac' | exact Hrest |].
    f_equal. f_equal. rewrite length_app. cbn [length]. lia.
Qed.

Lemma findall_skips (pre : list ascii) :
  forall (tail : list ascii) (fuel pos : nat),
    Forall (fun c => is_digit c = false) pre ->
    ends_with_dot pre = false ->
    findall_from percentile_regex (length pre + fuel) pos (pre ++ tail)
    = findall_from percentile_regex fuel (pos + length pre) tail.
Proof.
  induction pre as [|c pre IH]; intros tail fuel pos Hpre Hend.
  - cbn [app length]. now rewrite Nat.add_0_r.
  - inversion Hpre as [|? ? Hc Hpre']; subst.
    cbn [app length Nat.add findall_from].
    rewrite percentile_no_match.
    + rewrite IH; [f_equal; lia | exact Hpre' |].
      destruct pre; [reflexivity | exact Hend].
    + cbn [no_number_start]. split; [exact Hc|]. intros Hd.
      destruct pre as [|c' pre]; cbn [app no_digit_start].
      * cbn [ends_with_dot] in Hend. congruence.
      * now inversion Hpre'.
Qed.

(** X22.  The percentile of a summary file is the first number of its
    name: when the name is a text without digits that does not end with a
    dot, then digits, possibly a dot and more digits, then anything that
    does not go on with a digit (nor, after an integer, with a dot and a
    digit), the percentile is that number, as written. *)
Theorem percentile_is_first_number (pre int_part frac_part rest : list ascii) :
  Forall (fun c => is_digit c = false) pre ->
  ends_with_dot pre = false ->
  decimal_number int_part frac_part ->
  no_digit_start rest ->
  (frac_part = [] -> no_number_start rest) ->
  exists others,
    findall percentile_regex (str (pre ++ number_text int_part frac_part ++ rest))
    = str (number_text int_part frac_part) :: others.
Proof.
  intros Hpre Hend Hnum Hrest Hrest'.
  unfold findall. rewrite string_length_chars, chars_str.
  set (w := number_text int_part frac_part).
  rewrite length_app.
  replace (S (length pre + length (w ++ rest)))
    with (length pre + S (length (w ++ rest))) by lia.
  rewrite findall_skips by assumption.
  cbn [findall_from Nat.add].
  subst w. rewrite (percentile_match int_part frac_part rest) by assumption.
  set (w := number_text int_part frac_part).
  assert (length w <> 0) as Hlen.
  { subst w. destruct Hnum as (Hne & _ & _).
    destruct frac_part; cbn [number_text]; [|rewrite length_app];
      destruct int_part; cbn [length]; try congruence; lia. }
  replace (length pre + length w - length pre) with (length w) by lia.
  rewrite firstn_app, firstn_all, Nat.sub_diag, firstn_0, app_nil_r.
  destruct (Nat.eqb_spec (length pre + length w) (length pre)) as [Heq|_]; [lia|].
  now eexists.
Qed.

(** ** The further properties on the small runs *)

Lemma load_output_data_missing_key_witness :
  sample_load sample_files
    [("output_path", JStr "out"); ("num_scenarios", JInt 2);
     ("time_delta", JStr "1d"); ("summary_mid", JStr "summary_0.5.csv")]
  = (raise (KeyError "time_step_format"),
     [("time_delta", JStr "1d"); ("summary_mid", JStr "summary_0.5.csv")]).
Proof.
  apply (load_output_data_missing_key sample_files sample_strptime sample_int
           (raise (FileNotFoundError "config.json"))
           [("output_path", JStr "out"); ("num_scenarios", JInt 2);
            ("time_delta", JStr "1d"); ("summary_mid", JStr "summary_0.5.csv")]
           ["output_path"; "num_scenarios"] ["time_delta"; "first_time_step"]
           "time_step_format").
  - reflexivity.
  - intros k' [<-|[<-|[]]]; discriminate.
  - intros [H|[H|[]]]; discriminate.
  - reflexivity.
Defined.

Lemma load_output_data_bad_time_delta_witness :
  sample_load sample_files
    [("output_path", JStr "out"); ("num_scenarios", JInt 2);
     ("time_step_format", JStr "%Y-%m-%d"); ("time_delta", JStr "5m2h");
     ("first_time_step", JStr "2020-04-01")]
  = (raise (AssertionError (assert_message "5m2h")),
     [("first_time_step", JStr "2020-04-01")]).
Proof.
  apply (load_output_data_bad_time_delta sample_files sample_strptime sample_int
           (raise (FileNotFoundError "config.json"))
           [("output_path", JStr "out"); ("num_scenarios", JInt 2);
            ("time_step_format", JStr "%Y-%m-%d"); ("time_delta", JStr "5m2h");
            ("first_time_step", JStr "2020-04-01")]
           (JStr "out") (JInt 2) (JStr "%Y-%m-%d") "5m2h"
           (AssertionError (assert_message "5m2h"))); reflexivity.
Defined.

Lemma load_output_data_no_scenario_witness :
  sample_load sample_files
    [("output_path", JInt 7); ("num_scenarios", JInt 0);
     ("time_step_format", JStr "%Y-%m-%d"); ("time_delta", JStr "1d");
     ("first_time_step", JStr "2020-04-01")]
  = (ok ([], JStr "%Y-%m-%d"), []).
Proof.
  apply (load_output_data_no_scenario sample_files sample_strptime sample_int
           (raise (FileNotFoundError "config.json"))
           [("output_path", JInt 7); ("num_scenarios", JInt 0);
            ("time_step_format", JStr "%Y-%m-%d"); ("time_delta", JStr "1d");
            ("first_time_step", JStr "2020-04-01")]
           (JInt 7) (JInt 0) (JStr "%Y-%m-%d") (inject_Z 86400) (inject_Z 0) 0).
  - unfold preamble_ok. repeat split; try reflexivity; eexists; split; reflexivity.
  - lia.
Defined.

Lemma load_output_data_no_summary_witness :
  sample_load sample_files
    [("output_path", JStr "out"); ("num_scenarios", JInt 1);
     ("time_step_format", JStr "%Y-%m-%d"); ("time_delta", JStr "1d");
     ("first_time_step", JStr "2020-04-01"); ("output_html_file", JStr "dashboard.html")]
  = (raise (ValueError "No objects to concatenate"),
     [("output_html_file", JStr "dashboard.html")]).
Proof.
  apply (load_output_data_no_summary sample_files sample_strptime sample_int
           (raise (FileNotFoundError "config.json"))
           [("output_path", JStr "out"); ("num_scenarios", JInt 1);
            ("time_step_format", JStr "%Y-%m-%d"); ("time_delta", JStr "1d");
            ("first_time_step", JStr "2020-04-01");
            ("output_html_file", JStr "dashboard.html")]
           "out" (JInt 1) (JStr "%Y-%m-%d") (inject_Z 86400) (inject_Z 0) 1).
  - unfold preamble_ok. repeat split; try reflexivity; eexists; split; reflexivity.
  - lia.
  - reflexivity.
Defined.

Lemma load_summary_rows_witness :
  exists fname p ps raw,
    JStr "summary_0.95.csv" = JStr fname /\
    findall percentile_regex fname = p :: ps /\
    read_with_fallback sample_files "out_0/" "out" fname = ok raw /\
    Forall2 (enriched p (bound_of "summary_upper") (inject_Z 0) (inject_Z 86400))
            (rows raw) (rows sample_upper_table).
Proof.
  apply (load_summary_rows sample_files "out" "out_0/" (inject_Z 0) (inject_Z 86400)
           "summary_upper" (JStr "summary_0.95.csv") sample_upper_table).
  vm_compute. reflexivity.
Defined.

Lemma absolute_file_name_skips_directories_witness :
  read_with_fallback sample_files "out_0/" "out" "/data/summary_0.5.csv"
  = sample_files "/data/summary_0.5.csv".
Proof.
  apply (absolute_file_name_skips_directories sample_files "out_0/" "out"
           "/data/summary_0.5.csv").
  reflexivity.
Defined.

Lemma scenarios_without_files_agree_witness :
  load_scenario sample_files (JStr "out") (summary_files_of sample_config)
    (inject_Z 0) (inject_Z 86400) 1
  = load_scenario sample_files (JStr "out") (summary_files_of sample_config)
    (inject_Z 0) (inject_Z 86400) 2.
Proof.
  apply (scenarios_without_files_agree sample_files "out" (summary_files_of sample_config)
           (inject_Z 0) (inject_Z 86400) 1 2).
  intros e He. cbv in He. destruct He as [<-|[<-|[<-|[]]]];
    split; intros fname [= <-]; eexists; vm_compute; reflexivity.
Defined.

Lemma load_summary_without_timestep_witness :
  load_summary daily_files "out" "out_0/" (inject_Z 0) (inject_Z 86400)
    ("summary_mid", JStr "summary_0.5.csv")
  = raise (AttributeError "timestep").
Proof.
  apply (load_summary_without_timestep daily_files "out" "out_0/" (inject_Z 0)
           (inject_Z 86400) "summary_mid" "summary_0.5.csv" "0.5" []
           (table_of ["day"; "hospitalized"] [[0; 10]; [1; 11]]%Z)).
  - vm_compute. reflexivity.
  - reflexivity.
  - reflexivity.
  - discriminate.
Defined.

Lemma sample_load_tables :
  sample_load sample_files sample_config
  = (ok (sample_tables, JStr "%Y-%m-%d"), without_popped sample_config).
Proof. vm_compute. reflexivity. Qed.

Lemma load_output_data_tables_ready_witness : Forall loader_table sample_tables.
Proof.
  apply (load_output_data_tables_ready sample_files sample_strptime sample_int
           (raise (FileNotFoundError "config.json")) sample_config
           (without_popped sample_config) sample_tables (JStr "%Y-%m-%d")).
  exact sample_load_tables.
Defined.

Lemma sample_tables_columns :
  Forall (fun t => has_column "hospitalized" t = true) sample_tables.
Proof.
  apply List.Forall_forall.
  apply (proj1 (forallb_forall (has_column "hospitalized") sample_tables)).
  vm_compute. reflexivity.
Qed.

Lemma make_figure_after_load_witness :
  exists figures,
    make_figure sample_repr sample_tables sample_labels (JStr "%Y-%m-%d") = ok figures /\
    length figures = length sample_tables.
Proof.
  apply (make_figure_after_load sample_files sample_strptime sample_int
           (raise (FileNotFoundError "config.json")) sample_repr sample_config
           (without_popped sample_config) sample_tables (JStr "%Y-%m-%d") sample_labels).
  - exact sample_load_tables.
  - intros t y Ht Hy. cbv in Hy. destruct Hy as [<-|[]].
    pose proof sample_tables_columns as Hall.
    rewrite List.Forall_forall in Hall. now apply Hall.
Defined.

Lemma sample_table_loader : loader_table sample_table.
Proof.
  unfold loader_table. repeat split; try reflexivity.
  repeat constructor; eexists _, _; (split; [vm_compute; reflexivity|]);
    vm_compute; reflexivity.
Qed.

Lemma sample_figures :
  scenario_figures sample_repr sample_labels (JStr "%Y-%m-%d") sample_table
  = ok [("Hospitalized patients", sample_figure)].
Proof. vm_compute. reflexivity. Qed.

Lemma sample_table_rows : rows sample_table <> [].
Proof.
  intros H. apply (f_equal (@length (gmap string cell))) in H. vm_compute in H. discriminate.
Qed.

Lemma figures_of_empty_table_witness :
  fig_data sample_figure <> [] /\
  fig_layout sample_figure
    = Some (layout_of "Hospitalized patients" (JStr "%Y-%m-%d")).
Proof.
  destruct (figures_of_empty_table sample_repr sample_labels (JStr "%Y-%m-%d")
              sample_table [("Hospitalized patients", sample_figure)]
              "Hospitalized patients" sample_figure sample_figures (or_introl eq_refl))
    as [_ H].
  destruct H as (H1 & H2 & _); [exact sample_table_rows|]. now split.
Defined.

Lemma label_without_column_witness :
  scenario_figures sample_repr two_labels (JStr "%Y-%m-%d") sample_table
  = raise (KeyError "icu").
Proof.
  apply (label_without_column sample_repr two_labels (JStr "%Y-%m-%d") sample_table
           ["hospitalized"] [] "icu").
  - exact sample_table_loader.
  - exact sample_table_rows.
  - reflexivity.
  - intros b [<-|[]]. reflexivity.
  - reflexivity.
Defined.

Lemma missing_column_fails_in_remove_witness :
  scenario_figures sample_repr [] (JStr "%Y-%m-%d") sample_no_bound
  = raise (ValueError "list.remove(x): x not in list").
Proof.
  apply (missing_column_fails_in_remove sample_repr [] (JStr "%Y-%m-%d") sample_no_bound
           ["0.05"; "0.5"; "0.95"] "bound").
  - vm_compute. reflexivity.
  - right; right; now left.
  - reflexivity.
Defined.

Lemma mixed_figures :
  make_figure sample_repr [mixed_table] sample_labels (JStr "%Y-%m-%d")
  = ok [[("Hospitalized patients", mixed_figure)]].
Proof. vm_compute. reflexivity. Qed.

Lemma every_trace_drawn_as_middle_witness :
  map (fun r : gmap string cell => r !! "bound")
      (rows (filter_eq "percentile" "0.5" mixed_table))
    = [Some (CStr "lower"); Some (CStr "lower"); Some (CStr "upper"); Some (CStr "upper")] /\
  length (fig_data mixed_figure) = 1%nat /\
  Forall middle_style (fig_data mixed_figure).
Proof.
  split; [vm_compute; reflexivity|]. split; [vm_compute; reflexivity|].
  apply List.Forall_forall. intros tr Htr.
  apply (every_trace_drawn_as_middle sample_repr [mixed_table] sample_labels
           (JStr "%Y-%m-%d") [[("Hospitalized patients", mixed_figure)]]
           [("Hospitalized patients", mixed_figure)] "Hospitalized patients"
           mixed_figure tr mixed_figures).
  - now left.
  - now left.
  - exact Htr.
Defined.

Lemma figures_to_html_page_witness :
  figures_to_html sample_html (fun _ => ok tt) writes_ok
    [("Hospitalized patients", sample_figure)] "dashboard.html"
  = (ok tt,
     [OpOpen "dashboard.html" "w"; OpWrite page_head; OpWrite "<div>chart</div>";
      OpWrite page_foot]).
Proof.
  apply (figures_to_html_page sample_html (fun _ => ok tt) writes_ok (fun _ _ => eq_refl)
           [("Hospitalized patients", sample_figure)] ["<div>chart</div>"]
           "dashboard.html").
  - reflexivity.
  - repeat constructor.
Defined.

Lemma figure_without_body_witness :
  figures_to_html bare_html (fun _ => ok tt) writes_ok
    [("Hospitalized patients", sample_figure)] "dashboard.html"
  = (raise (IndexError "list index out of range"),
     [OpOpen "dashboard.html" "w"; OpWrite page_head]).
Proof.
  apply (figure_without_body bare_html (fun _ => ok tt) writes_ok (fun _ _ => eq_refl)
           [] [] "Hospitalized patients" sample_figure [] "dashboard.html").
  - reflexivity.
  - constructor.
  - reflexivity.
Defined.

Lemma percentile_is_first_number_witness :
  exists others, findall percentile_regex "summary_0.95.csv" = "0.95" :: others.
Proof.
  apply (percentile_is_first_number (chars "summary_") (chars "0") (chars "95")
           (chars ".csv")).
  - repeat constructor.
  - reflexivity.
  - repeat split; [discriminate | repeat constructor | repeat constructor].
  - reflexivity.
  - discriminate.
Defined.
